(** * The book routes of the catalogue service

    A shallow embedding of [src/models/book.model.js] and
    [src/routes/book.route.js]: the book schema, the four route handlers
    ([POST /books], [GET /books], [PUT /books/:id], [DELETE /books/:id]) and
    the part of the document store they call.

    Conventions.
    - The collection is the list of its documents in natural order; every
      store call is a state transformer that may raise.
    - Text is [string]: a sequence of code units below 256.
    - Request values follow the schema the routes document in their
      [@swagger] blocks: body properties and the [query] and [id]
      parameters are text, [page] is an integer; any of them may be missing.
      Numbers are read as mathematical integers.
    - What the handlers obtain from outside the repository without the
      repository fixing it (how an identifier or a date is parsed, what a
      pattern with metacharacters matches, what the store does with a skip
      that is not a number) is the interface [Env]. *)

From Stdlib Require Import ZArith NArith List Bool String Ascii Lia.
Import ListNotations.

Open Scope string_scope.
Open Scope Z_scope.

(** ** Values of the request *)

(** [if (v)] on a value that is missing or text: text is truthy unless it is
    empty. *)
Definition truthy (v : option string) : bool :=
  match v with
  | Some s => negb (s =? "")%string
  | None => false
  end.

(** The text of a value, read where the value is known to be truthy. *)
Definition text (v : option string) : string :=
  match v with
  | Some s => s
  | None => ""
  end.

(** The numbers the handler computes with: [page] is missing ([undefined],
    which arithmetic reads as [NaN]) or an integer. *)
Inductive jsnum : Type :=
| Num (z : Z)
| NaN.

Definition ToNumber (v : option Z) : jsnum :=
  match v with
  | Some z => Num z
  | None => NaN
  end.

Definition js_sub (a b : jsnum) : jsnum :=
  match a, b with
  | Num x, Num y => Num (x - y)
  | _, _ => NaN
  end.

Definition js_mul (a b : jsnum) : jsnum :=
  match a, b with
  | Num x, Num y => Num (x * y)
  | _, _ => NaN
  end.

(** ** Errors and results *)

Definition dquote : string := String (ascii_of_nat 34) "".

Fixpoint join (sep : string) (l : list string) : string :=
  match l with
  | [] => ""
  | [x] => x
  | x :: r => x ++ sep ++ join sep r
  end.

(** What can be raised inside a handler.  A validation error lists its
    failures as (path, text) pairs; a cast error names the target type, the
    rejected text and the path; the other two carry the text of the store
    or of the pattern compiler. *)
Inductive error : Type :=
| ValidationError (model : string) (failures : list (string * string))
| CastError (kind value path : string)
| MongoServerError (text : string)
| HostError (text : string).

(** The text of a cast error.  (Where the cast is that of a query, the
    library goes on to name the model; that tail is left out.) *)
Definition cast_message (kind value path : string) : string :=
  "Cast to " ++ kind ++ " failed for value " ++ dquote ++ value ++ dquote
  ++ " (type string) at path " ++ dquote ++ path ++ dquote.

(** [error.message] *)
Definition message (e : error) : string :=
  match e with
  | ValidationError model failures =>
      model ++ " validation failed: "
      ++ join ", " (map (fun f => fst f ++ ": " ++ snd f) failures)
  | CastError kind value path => cast_message kind value path
  | MongoServerError text => text
  | HostError text => text
  end.

Inductive result (A : Type) : Type :=
| Ok (a : A)
| Throw (e : error).
Arguments Ok {A} a.
Arguments Throw {A} e.

(** ** The book model ([src/models/book.model.js]) *)

Definition ObjectId : Type := N.
(** A date is its time value, milliseconds since the epoch. *)
Definition Date : Type := Z.

Inductive schema_type : Type := SString | SDate.

Record path_options : Type := {
  type : schema_type;
  required : bool
}.

Record schema : Type := {
  s_title : path_options;
  s_author : path_options;
  s_isbn : path_options;
  s_description : path_options;
  s_publishedDate : path_options;
  versionKey : bool
}.

Definition bookSchema : schema := {|
  s_title := {| type := SString; required := true |};
  s_author := {| type := SString; required := true |};
  s_isbn := {| type := SString; required := true |};
  s_description := {| type := SString; required := true |};
  s_publishedDate := {| type := SDate; required := true |};
  versionKey := false
|}.

Definition modelName : string := "Book".

(** A stored book.  [publishedDate] is [None] when the stored value is
    [null], which an update can write. *)
Record document : Type := {
  _id : ObjectId;
  title : string;
  author : string;
  isbn : string;
  description : string;
  publishedDate : option Date
}.

(** The collection, in natural order. *)
Definition store : Type := list document.

(** The properties of a request body ([req.body]). *)
Record book_body : Type := {
  b_title : option string;
  b_author : option string;
  b_isbn : option string;
  b_description : option string;
  b_publishedDate : option string
}.

(** ** The environment *)

Class Env : Type := {
  (** casting text to an identifier; [None] when it is malformed *)
  castObjectId : string -> option ObjectId;
  (** parsing non-empty text as a date; [None] when it is no date *)
  parseDate : string -> option Date;
  (** a pattern that is more than literal text: the predicate it compiles
      to, or the error raised on the way *)
  hostRegExp : string -> result (string -> bool);
  (** [find().skip(NaN).limit(n)] on a collection *)
  findSkipNaN : store -> Z -> result (list document)
}.

(** ** Casting and validation *)

(** The state of one path of a document under construction. *)
Inductive slot (A : Type) : Type :=
| Unset
| Value (a : A)
| CastFailed (raw : string).
Arguments Unset {A}.
Arguments Value {A} a.
Arguments CastFailed {A} raw.

Definition castString (v : option string) : slot string :=
  match v with
  | Some s => Value s
  | None => Unset
  end.

(** Missing and empty text both cast to no date. *)
Definition castDate `{Env} (v : option string) : slot Date :=
  match v with
  | None => Unset
  | Some s =>
      if (s =? "")%string then Unset
      else match parseDate s with
           | Some d => Value d
           | None => CastFailed s
           end
  end.

(** A document under construction ([new BookModel({...})]). *)
Record candidate : Type := {
  c_id : ObjectId;
  c_title : slot string;
  c_author : slot string;
  c_isbn : slot string;
  c_description : slot string;
  c_publishedDate : slot Date
}.

(** [new BookModel({title, author, isbn, description, publishedDate})]:
    the identifier is drawn by the constructor, each property is cast to the
    type of its path. *)
Definition BookModel_new `{Env} (fresh : ObjectId) (b : book_body) : candidate := {|
  c_id := fresh;
  c_title := castString (b_title b);
  c_author := castString (b_author b);
  c_isbn := castString (b_isbn b);
  c_description := castString (b_description b);
  c_publishedDate := castDate (b_publishedDate b)
|}.

Definition cast_failure {A} (path kind : string) (v : slot A)
  : list (string * string) :=
  match v with
  | CastFailed raw => [(path, cast_message kind raw path)]
  | _ => []
  end.

Definition required_message (path : string) : string :=
  "Path `" ++ path ++ "` is required.".

(** The required validator of a text path: the value must be non-empty
    text. *)
Definition required_string (o : path_options) (path : string) (v : slot string)
  : list (string * string) :=
  match v with
  | Value s => if required o && (s =? "")%string then [(path, required_message path)] else []
  | Unset => if required o then [(path, required_message path)] else []
  | CastFailed _ => []
  end.

(** The required validator of a date path: the value must be a date. *)
Definition required_date (o : path_options) (path : string) (v : slot Date)
  : list (string * string) :=
  match v with
  | Value _ => []
  | Unset => if required o then [(path, required_message path)] else []
  | CastFailed _ => []
  end.

(** The failures of a candidate against [bookSchema]: cast failures were
    recorded when the candidate was built, the validators add theirs in
    schema order. *)
Definition failures_of (c : candidate) : list (string * string) :=
  (cast_failure "publishedDate" "date" (c_publishedDate c)
   ++ required_string (s_title bookSchema) "title" (c_title c)
   ++ required_string (s_author bookSchema) "author" (c_author c)
   ++ required_string (s_isbn bookSchema) "isbn" (c_isbn c)
   ++ required_string (s_description bookSchema) "description" (c_description c)
   ++ required_date (s_publishedDate bookSchema) "publishedDate" (c_publishedDate c))%list.

Definition validate (c : candidate) : result document :=
  match c_title c, c_author c, c_isbn c, c_description c, c_publishedDate c,
        failures_of c with
  | Value t, Value a, Value i, Value d, Value p, [] =>
      Ok {| _id := c_id c; title := t; author := a; isbn := i;
            description := d; publishedDate := Some p |}
  | _, _, _, _, _, fs => Throw (ValidationError modelName fs)
  end.

(** ** Store calls

    A call runs against the collection and returns a value or raises; the
    collection it leaves behind comes with the answer. *)

Definition Db (A : Type) : Type := store -> result A * store.

Definition ret {A} (a : A) : Db A := fun st => (Ok a, st).

Definition bind {A B} (m : Db A) (k : A -> Db B) : Db B :=
  fun st =>
    match m st with
    | (Ok a, st') => k a st'
    | (Throw e, st') => (Throw e, st')
    end.

(** an expression that may raise before the store is reached *)
Definition lift {A} (r : result A) : Db A := fun st => (r, st).

Notation "x <- m ;; k" := (bind m (fun x => k))
  (at level 61, m at next level, right associativity).

Definition has_id (i : ObjectId) (d : document) : bool := N.eqb (_id d) i.

Definition cast_id `{Env} (id : string) : result ObjectId :=
  match castObjectId id with
  | Some i => Ok i
  | None => Throw (CastError "ObjectId" id "_id")
  end.

(** [newBook.save()]: validate, then insert at the end of the collection;
    the store refuses an identifier it already holds.  Of the server's text
    for that refusal only the head is kept. *)
Definition save (c : candidate) : Db document :=
  d <- lift (validate c) ;;
  fun st =>
    if existsb (has_id (_id d)) st
    then (Throw (MongoServerError "E11000 duplicate key error"), st)
    else (Ok d, (st ++ [d])%list).

(** [BookModel.findById(id)] *)
Definition findById `{Env} (id : string) : Db (option document) :=
  i <- lift (cast_id id) ;;
  fun st => (Ok (find (has_id i) st), st).

(** [BookModel.find(conditions)] *)
Definition find_where (conditions : document -> bool) : Db (list document) :=
  fun st => (Ok (filter conditions st), st).

(** [BookModel.find().skip(skip).limit(limit)]: the store refuses a negative
    skip, in words that vary with its version. *)
Definition find_skip_limit `{Env} (skip : jsnum) (limit : Z) : Db (list document) :=
  fun st =>
    match skip with
    | Num k =>
        if k <? 0
        then (Throw (MongoServerError "Skip value must be non-negative"), st)
        else (Ok (firstn (Z.to_nat limit) (skipn (Z.to_nat k) st)), st)
    | NaN => (findSkipNaN st limit, st)
    end.

(** The modifications an update body casts to.  For each path: [None] leaves
    it alone, [Some v] sets it. *)
Record update : Type := {
  u_title : option string;
  u_author : option string;
  u_isbn : option string;
  u_description : option string;
  u_publishedDate : option (option Date)
}.

(** Casting an update body against [bookSchema]; no validator runs. *)
Definition castUpdate `{Env} (b : book_body) : result update :=
  match b_publishedDate b with
  | None =>
      Ok {| u_title := b_title b; u_author := b_author b; u_isbn := b_isbn b;
            u_description := b_description b; u_publishedDate := None |}
  | Some s =>
      match castDate (Some s) with
      | Unset =>
          Ok {| u_title := b_title b; u_author := b_author b; u_isbn := b_isbn b;
                u_description := b_description b; u_publishedDate := Some None |}
      | Value d =>
          Ok {| u_title := b_title b; u_author := b_author b; u_isbn := b_isbn b;
                u_description := b_description b; u_publishedDate := Some (Some d) |}
      | CastFailed raw => Throw (CastError "date" raw "publishedDate")
      end
  end.

Definition or_keep {A} (new : option A) (old : A) : A :=
  match new with
  | Some a => a
  | None => old
  end.

Definition apply_update (u : update) (d : document) : document := {|
  _id := _id d;
  title := or_keep (u_title u) (title d);
  author := or_keep (u_author u) (author d);
  isbn := or_keep (u_isbn u) (isbn d);
  description := or_keep (u_description u) (description d);
  publishedDate := or_keep (u_publishedDate u) (publishedDate d)
|}.

(** Rewrite the first document with identifier [i], in place. *)
Fixpoint update_first (i : ObjectId) (u : update) (st : store)
  : option document * store :=
  match st with
  | [] => (None, [])
  | d :: r =>
      if has_id i d
      then (Some (apply_update u d), apply_update u d :: r)
      else let (found, r') := update_first i u r in (found, d :: r')
  end.

(** Take out the first document with identifier [i]. *)
Fixpoint remove_first (i : ObjectId) (st : store) : option document * store :=
  match st with
  | [] => (None, [])
  | d :: r =>
      if has_id i d
      then (Some d, r)
      else let (found, r') := remove_first i r in (found, d :: r')
  end.

(** [BookModel.findByIdAndUpdate(id, body, { new: true })]: the document
    after the update, [None] ([null]) when no document has the identifier. *)
Definition findByIdAndUpdate `{Env} (id : string) (b : book_body)
  : Db (option document) :=
  i <- lift (cast_id id) ;;
  u <- lift (castUpdate b) ;;
  fun st => let (found, st') := update_first i u st in (Ok found, st').

(** [BookModel.findByIdAndDelete(id)]: the document removed, [None] when no
    document has the identifier. *)
Definition findByIdAndDelete `{Env} (id : string) : Db (option document) :=
  i <- lift (cast_id id) ;;
  fun st => let (found, st') := remove_first i st in (Ok found, st').

(** ** Regular expressions ([new RegExp(query, "i")])

    The pattern language is modelled on its literal fragment: a pattern made
    of ordinary characters and of syntax characters escaped by a backslash
    denotes that text, searched for anywhere in the subject, letters compared
    without regard to case.  Every other pattern is the environment's. *)

Definition syntax_character (c : ascii) : bool :=
  existsb (Ascii.eqb c)
    ["^"; "$"; "\"; "."; "*"; "+"; "?"; "("; ")"; "["; "]"; "{"; "}"; "|"]%char.

(** The text a literal pattern denotes; [None] outside the fragment.  A
    pattern holding the code unit 0 cannot be sent to the store as text and
    is left to the environment too. *)
Fixpoint literal_pattern (q : string) : option (list ascii) :=
  match q with
  | "" => Some []
  | String c r =>
      if Ascii.eqb c "\"
      then match r with
           | String e r' =>
               if syntax_character e
               then option_map (cons e) (literal_pattern r')
               else None
           | "" => None
           end
      else if syntax_character c || Ascii.eqb c zero
      then None
      else option_map (cons c) (literal_pattern r)
  end.

(** The canonical form under which the [i] flag compares code units: the
    upper-case counterpart when it is a single code unit. *)
Definition Canonicalize (c : ascii) : N :=
  let n := N_of_ascii c in
  (if (97 <=? n) && (n <=? 122) then n - 32
   else if (224 <=? n) && (n <=? 254) && negb (n =? 247) then n - 32
   else if n =? 255 then 376
   else if n =? 181 then 924
   else n)%N.

Definition same_letter (c d : ascii) : bool :=
  N.eqb (Canonicalize c) (Canonicalize d).

(** Does the text [p] match at the head of [s]? *)
Fixpoint match_here (p : list ascii) (s : string) : bool :=
  match p, s with
  | [], _ => true
  | _ :: _, "" => false
  | c :: p', String d s' => same_letter c d && match_here p' s'
  end.

(** Does the text [p] match somewhere in [s]? *)
Fixpoint search (p : list ascii) (s : string) : bool :=
  match_here p s
  || match s with
     | "" => false
     | String _ s' => search p s'
     end.

(** [new RegExp(pattern, "i")], as the predicate "the expression matches" *)
Definition RegExp_i `{Env} (pattern : string) : result (string -> bool) :=
  match literal_pattern pattern with
  | Some p => Ok (search p)
  | None => hostRegExp pattern
  end.

(** ** Responses *)

Inductive body : Type :=
| JMessage (message : string)
| JMessageBook (message : string) (book : option document)
| JMessageError (message : string) (error : string)
| JBook (book : document)
| JBooks (books : list document).

Record response : Type := {
  status : Z;
  json : body
}.

Definition res (code : Z) (b : body) : response := {| status := code; json := b |}.

(** [try { ... } catch (error) { ... }] around a handler's body *)
Definition try_catch (block : Db response) (handler : error -> response)
  : store -> response * store :=
  fun st =>
    match block st with
    | (Ok r, st') => (r, st')
    | (Throw e, st') => (handler e, st')
    end.

(** ** The routes ([src/routes/book.route.js]) *)

(** The parameters of [GET /books] ([req.query]). *)
Record books_query : Type := {
  q_page : option Z;
  q_query : option string;
  q_id : option string
}.

(** The body of the [try] block of [POST /books]. *)
Definition post_books_block `{Env} (fresh : ObjectId) (req_body : book_body)
  : Db response :=
  let title := b_title req_body in
  let author := b_author req_body in
  let isbn := b_isbn req_body in
  let description := b_description req_body in
  let publishedDate := b_publishedDate req_body in
  if negb (truthy title) || negb (truthy author) || negb (truthy isbn)
     || negb (truthy publishedDate)
  then ret (res 400 (JMessage "All fields are required"))
  else
    let newBook :=
      BookModel_new fresh
        {| b_title := title; b_author := author; b_isbn := isbn;
           b_description := description; b_publishedDate := publishedDate |} in
    saved <- save newBook ;;
    ret (res 201 (JMessageBook "Book created" (Some saved))).

(** [POST /books].  [fresh] is the identifier the model constructor draws
    for the new document. *)
Definition post_books `{Env} (fresh : ObjectId) (req_body : book_body)
  : store -> response * store :=
  try_catch (post_books_block fresh req_body)
            (fun error => res 400 (JMessage (message error))).

(** The body of the [try] block of [GET /books]. *)
Definition get_books_block `{Env} (req_query : books_query) : Db response :=
  let page := q_page req_query in
  let query := q_query req_query in
  let id := q_id req_query in
  let perPage := 4 in
  let skip := js_mul (js_sub (ToNumber page) (Num 1)) (Num perPage) in
  if truthy id then
    book <- findById (text id) ;;
    match book with
    | None => ret (res 400 (JMessage "Book Not Found"))
    | Some b => ret (res 200 (JBook b))
    end
  else if truthy query then
    searchRegex <- lift (RegExp_i (text query)) ;;
    books <- find_where (fun d => searchRegex (title d) || searchRegex (author d)) ;;
    ret (res 200 (JBooks books))
  else
    books <- find_skip_limit skip perPage ;;
    ret (res 200 (JBooks books)).

(** [GET /books] *)
Definition get_books `{Env} (req_query : books_query) : store -> response * store :=
  try_catch (get_books_block req_query)
            (fun error => res 400 (JMessageError "Internal server error" (message error))).

(** The body of the [try] block of [PUT /books/:id]. *)
Definition put_books_block `{Env} (id : string) (req_body : book_body) : Db response :=
  updatedBook <- findByIdAndUpdate id req_body ;;
  ret (res 200 (JMessageBook "Book updated" updatedBook)).

(** [PUT /books/:id] *)
Definition put_books `{Env} (id : string) (req_body : book_body)
  : store -> response * store :=
  try_catch (put_books_block id req_body)
            (fun error => res 400 (JMessageError "Internal server error" (message error))).

(** The body of the [try] block of [DELETE /books/:id]. *)
Definition delete_books_block `{Env} (id : string) : Db response :=
  deletedBook <- findByIdAndDelete id ;;
  ret (res 200 (JMessageBook "Book deleted" deletedBook)).

(** [DELETE /books/:id] *)
Definition delete_books `{Env} (id : string) : store -> response * store :=
  try_catch (delete_books_block id)
            (fun error => res 400 (JMessageError "Internal server error" (message error))).

(** ** A sample environment

    A small environment to run the handlers on examples.  Identifiers are
    24 hexadecimal digits, dates are written [YYYY-MM-DD], patterns may use
    the wildcard [.] next to literal text, and everything else is refused. *)

Module Sample.

Definition hex_value (c : ascii) : option N :=
  let n := N_of_ascii c in
  (if (48 <=? n) && (n <=? 57) then Some (n - 48)
   else if (97 <=? n) && (n <=? 102) then Some (n - 87)
   else if (65 <=? n) && (n <=? 70) then Some (n - 55)
   else None)%N.

Fixpoint hex_fold (acc : N) (s : string) : option N :=
  match s with
  | "" => Some acc
  | String c r =>
      match hex_value c with
      | Some v => hex_fold (16 * acc + v)%N r
      | None => None
      end
  end.

Definition hex_id (s : string) : option ObjectId :=
  if Nat.eqb (String.length s) 24 then hex_fold 0%N s else None.

Definition digit (c : ascii) : option Z :=
  let n := Z.of_N (N_of_ascii c) in
  if (48 <=? n) && (n <=? 57) then Some (n - 48) else None.

Fixpoint digits (acc : Z) (l : list ascii) : option Z :=
  match l with
  | [] => Some acc
  | c :: r =>
      match digit c with
      | Some v => digits (10 * acc + v) r
      | None => None
      end
  end.

Definition leap (y : Z) : bool :=
  ((y mod 4 =? 0) && negb (y mod 100 =? 0)) || (y mod 400 =? 0).

Definition days_in_month (y m : Z) : Z :=
  if m =? 2 then (if leap y then 29 else 28)
  else if (m =? 4) || (m =? 6) || (m =? 9) || (m =? 11) then 30
  else 31.

(** Days from 1970-01-01 to the given civil date. *)
Definition days_from_civil (y m d : Z) : Z :=
  let y' := if m <=? 2 then y - 1 else y in
  let era := y' / 400 in
  let yoe := y' - era * 400 in
  let mp := if m <=? 2 then m + 9 else m - 3 in
  let doy := (153 * mp + 2) / 5 + d - 1 in
  let doe := yoe * 365 + yoe / 4 - yoe / 100 + doy in
  era * 146097 + doe - 719468.

Definition iso_date (s : string) : option Date :=
  match list_ascii_of_string s with
  | [y1; y2; y3; y4; "-"; m1; m2; "-"; d1; d2]%char =>
      match digits 0 [y1; y2; y3; y4], digits 0 [m1; m2], digits 0 [d1; d2] with
      | Some y, Some m, Some d =>
          if (1 <=? m) && (m <=? 12) && (1 <=? d) && (d <=? days_in_month y m)
          then Some (days_from_civil y m d * 86400000)
          else None
      | _, _, _ => None
      end
  | _ => None
  end.

Inductive atom : Type :=
| Lit (c : ascii)
| AnyChar.

Fixpoint atoms (q : string) : option (list atom) :=
  match q with
  | "" => Some []
  | String c r =>
      if Ascii.eqb c "."
      then option_map (cons AnyChar) (atoms r)
      else if Ascii.eqb c "\"
      then match r with
           | String e r' =>
               if syntax_character e
               then option_map (cons (Lit e)) (atoms r')
               else None
           | "" => None
           end
      else if syntax_character c || Ascii.eqb c zero
      then None
      else option_map (cons (Lit c)) (atoms r)
  end.

Definition line_terminator (c : ascii) : bool :=
  (N_of_ascii c =? 10)%N || (N_of_ascii c =? 13)%N.

Definition atom_matches (a : atom) (d : ascii) : bool :=
  match a with
  | Lit c => same_letter c d
  | AnyChar => negb (line_terminator d)
  end.

Fixpoint atoms_here (p : list atom) (s : string) : bool :=
  match p, s with
  | [], _ => true
  | _ :: _, "" => false
  | a :: p', String d s' => atom_matches a d && atoms_here p' s'
  end.

Fixpoint atoms_search (p : list atom) (s : string) : bool :=
  atoms_here p s
  || match s with
     | "" => false
     | String _ s' => atoms_search p s'
     end.

Definition wildcard_pattern (q : string) : result (string -> bool) :=
  match atoms q with
  | Some p => Ok (atoms_search p)
  | None => Throw (HostError ("Invalid regular expression: /" ++ q ++ "/"))
  end.

Definition refuse_skip (st : store) (limit : Z) : result (list document) :=
  Throw (MongoServerError "Failed to parse: skip").

#[export] Instance env : Env := {|
  castObjectId := hex_id;
  parseDate := iso_date;
  hostRegExp := wildcard_pattern;
  findSkipNaN := refuse_skip
|}.

Definition id1 : string := "64b7f0c2a1d3e4f5a6b7c8d1".
Definition id2 : string := "64b7f0c2a1d3e4f5a6b7c8d2".
Definition id9 : string := "64b7f0c2a1d3e4f5a6b7c8d9".

Definition oid (s : string) : ObjectId :=
  match hex_id s with
  | Some i => i
  | None => 0%N
  end.

Definition book (i : ObjectId) (t a : string) : document := {|
  _id := i; title := t; author := a; isbn := "1234567890";
  description := "A sample book description";
  publishedDate := Some 1672531200000
|}.

Definition sample_body : book_body := {|
  b_title := Some "Sample Book";
  b_author := Some "John Doe";
  b_isbn := Some "1234567890";
  b_description := Some "A sample book description";
  b_publishedDate := Some "2023-01-01"
|}.

Definition shelf : store :=
  [ book (oid id1) "Sample Book" "John Doe";
    book (oid id2) "f(x) = a.b" "Jane Roe" ].

Definition six : store :=
  [ book 1%N "one" "a"; book 2%N "two" "b"; book 3%N "three" "c";
    book 4%N "four" "d"; book 5%N "five" "e"; book 6%N "six" "f" ].

End Sample.

(** ** An environment with the engine's date parser

    The sample environment, except for the dates: like the engine the
    service runs on, its parser accepts a day of up to 31 in every month and
    carries the days a month does not have over into the next. *)

Module Lenient.

Definition lenient_date (s : string) : option Date :=
  match list_ascii_of_string s with
  | [y1; y2; y3; y4; "-"; m1; m2; "-"; d1; d2]%char =>
      match Sample.digits 0 [y1; y2; y3; y4], Sample.digits 0 [m1; m2],
            Sample.digits 0 [d1; d2] with
      | Some y, Some m, Some d =>
          if (1 <=? m) && (m <=? 12) && (1 <=? d) && (d <=? 31)
          then Some (Sample.days_from_civil y m d * 86400000)
          else None
      | _, _, _ => None
      end
  | _ => None
  end.

#[export] Instance env : Env := {|
  castObjectId := Sample.hex_id;
  parseDate := lenient_date;
  hostRegExp := Sample.wildcard_pattern;
  findSkipNaN := Sample.refuse_skip
|}.

End Lenient.

(** ** Notions the properties are stated with *)

(** The year, month and day a text of the form [YYYY-MM-DD] writes. *)
Definition written_date (s : string) : option (Z * Z * Z) :=
  match list_ascii_of_string s with
  | [y1; y2; y3; y4; "-"; m1; m2; "-"; d1; d2]%char =>
      match Sample.digits 0 [y1; y2; y3; y4], Sample.digits 0 [m1; m2],
            Sample.digits 0 [d1; d2] with
      | Some y, Some m, Some d => Some (y, m, d)
      | _, _, _ => None
      end
  | _ => None
  end.

(** The year, month and day of the day numbered [z] from 1970-01-01. *)
Definition civil_from_days (z : Z) : Z * Z * Z :=
  let z := z + 719468 in
  let era := z / 146097 in
  let doe := z - era * 146097 in
  let yoe := (doe - doe / 1460 + doe / 36524 - doe / 146096) / 365 in
  let doy := doe - (365 * yoe + yoe / 4 - yoe / 100) in
  let mp := (5 * doy + 2) / 153 in
  let d := doy - (153 * mp + 2) / 5 + 1 in
  let m := if mp <? 10 then mp + 3 else mp - 9 in
  let y := yoe + era * 400 in
  (if m <=? 2 then y + 1 else y, m, d).

(** The calendar date (UTC) of a time value. *)
Definition calendar_date (t : Date) : Z * Z * Z :=
  civil_from_days (t / 86400000).

(** Identifiers are unique in a collection. *)
Definition store_ok (st : store) : Prop := NoDup (map _id st).

(** Two texts are the same up to the case of their letters. *)
Definition same_text_ci (u v : string) : Prop :=
  Forall2 (fun c d => Canonicalize c = Canonicalize d)
          (list_ascii_of_string u) (list_ascii_of_string v).

(** [s] contains [q] as a substring, case being ignored. *)
Definition contains_ci (q s : string) : Prop :=
  exists pre mid post, s = pre ++ mid ++ post /\ same_text_ci q mid.

(** A search text without pattern syntax: no syntax character, no code
    unit 0. *)
Definition plain_text (q : string) : bool :=
  forallb (fun c => negb (syntax_character c || Ascii.eqb c zero))
          (list_ascii_of_string q).

(** [l] is page [p] of [st], four records to the page: position [i] of [l]
    holds the record at position [(p - 1) * 4 + i] of [st], for [i] below
    4, and nothing beyond. *)
Definition is_page (p : Z) (st l : list document) : Prop :=
  forall i : nat,
    nth_error l i =
    if (i <? 4)%nat then nth_error st (Z.to_nat ((p - 1) * 4) + i)%nat else None.

(** The three modes of [GET /books]. *)
Inductive mode : Type := IdMode | QueryMode | PageMode.

(** A parameter counts as present when it has a non-empty value (the
    handler's test [if (id)], [if (query)]).  The mode is chosen by
    priority: [id], then [query], then [page]. *)
Definition select_mode (r : books_query) : mode :=
  if truthy (q_id r) then IdMode
  else if truthy (q_query r) then QueryMode
  else PageMode.

(** Fetching one record by identifier. *)
Definition by_id `{Env} (id : string) (st : store) : response * store :=
  match castObjectId id with
  | None =>
      (res 400 (JMessageError "Internal server error"
                  (cast_message "ObjectId" id "_id")), st)
  | Some i =>
      match find (has_id i) st with
      | Some d => (res 200 (JBook d), st)
      | None => (res 400 (JMessage "Book Not Found"), st)
      end
  end.

(** Searching title and author with an expression. *)
Definition by_query `{Env} (q : string) (st : store) : response * store :=
  match RegExp_i q with
  | Ok re => (res 200 (JBooks (filter (fun d => re (title d) || re (author d)) st)), st)
  | Throw e => (res 400 (JMessageError "Internal server error" (message e)), st)
  end.

(** Listing one page. *)
Definition by_page `{Env} (page : option Z) (st : store) : response * store :=
  match page with
  | Some p =>
      if (p - 1) * 4 <? 0
      then (res 400 (JMessageError "Internal server error"
                       "Skip value must be non-negative"), st)
      else (res 200 (JBooks (firstn 4 (skipn (Z.to_nat ((p - 1) * 4)) st))), st)
  | None =>
      match findSkipNaN st 4 with
      | Ok l => (res 200 (JBooks l), st)
      | Throw e => (res 400 (JMessageError "Internal server error" (message e)), st)
      end
  end.

Definition run_mode `{Env} (m : mode) (r : books_query) (st : store)
  : response * store :=
  match m with
  | IdMode => by_id (text (q_id r)) st
  | QueryMode => by_query (text (q_query r)) st
  | PageMode => by_page (q_page r) st
  end.

(** The fields of an update body can be cast: the date, when given and not
    empty, parses. *)
Definition castable `{Env} (b : book_body) : Prop :=
  forall s, b_publishedDate b = Some s -> s <> "" -> parseDate s <> None.

(** A property of the request is absent or empty; it is given when it has a
    non-empty value. *)
Definition absent_or_empty (v : option string) : Prop := v = None \/ v = Some "".

Definition given (v : option string) : Prop := exists s, v = Some s /\ s <> "".

(** The records of a listing answer; none when the answer is no list. *)
Definition books_of (r : response) : list document :=
  match json r with
  | JBooks l => l
  | _ => []
  end.

(** The records [GET /books?page=p] answers with. *)
Definition listing `{Env} (st : store) (p : nat) : list document :=
  books_of (fst (get_books {| q_page := Some (Z.of_nat p); q_query := None;
                              q_id := None |} st)).

(** ** The router ([bookRouter])

    The four routes, dispatched on method and path, and a run of requests
    served one after the other. *)

Inductive request : Type :=
| POST_books (fresh : ObjectId) (req_body : book_body)
| GET_books (req_query : books_query)
| PUT_books (id : string) (req_body : book_body)
| DELETE_books (id : string).

Definition bookRouter `{Env} (r : request) : store -> response * store :=
  match r with
  | POST_books fresh req_body => post_books fresh req_body
  | GET_books req_query => get_books req_query
  | PUT_books id req_body => put_books id req_body
  | DELETE_books id => delete_books id
  end.

(** The collection after a run of requests. *)
Fixpoint serve `{Env} (rs : list request) (st : store) : store :=
  match rs with
  | [] => st
  | r :: rest => serve rest (snd (bookRouter r st))
  end.

(** ** The test suite of the book routes

    The requests the test file sends to the book routes, in its order, and
    what it looks at in each answer: the status, the [message] of the body,
    whether the body is an array. *)

(** The answers to a run of requests. *)
Fixpoint responses `{Env} (rs : list request) (st : store) : list response :=
  match rs with
  | [] => []
  | r :: rest => fst (bookRouter r st) :: responses rest (snd (bookRouter r st))
  end.

Definition body_message (b : body) : option string :=
  match b with
  | JMessage m => Some m
  | JMessageBook m _ => Some m
  | JMessageError m _ => Some m
  | JBook _ => None
  | JBooks _ => None
  end.

Definition is_array (b : body) : bool :=
  match b with
  | JBooks _ => true
  | _ => false
  end.

Definition observe (r : response) : Z * option string * bool :=
  (status r, body_message (json r), is_array (json r)).

Definition test_book : book_body := {|
  b_title := Some "Sample Book";
  b_author := Some "John Doe";
  b_isbn := Some "1234567890";
  b_description := Some "A sample book description";
  b_publishedDate := Some "2023-01-01"
|}.

Definition test_update : book_body := {|
  b_title := Some "Updated Book";
  b_author := Some "Updated Author";
  b_isbn := Some "9876543210";
  b_description := Some "Updated description";
  b_publishedDate := Some "2023-03-01"
|}.

Definition empty_body : book_body := {|
  b_title := None; b_author := None; b_isbn := None;
  b_description := None; b_publishedDate := None
|}.

Definition invalidBookId : string := "invalid_id".

(** [bookId] is the text of the identifier the first answer carries;
    [fresh] and [fresh'] are the identifiers drawn by the two creations. *)
Definition book_tests (fresh fresh' : ObjectId) (bookId : string) : list request :=
  [ POST_books fresh test_book;
    POST_books fresh' empty_body;
    GET_books {| q_page := Some 1; q_query := None; q_id := None |};
    GET_books {| q_page := None; q_query := Some "Sample"; q_id := None |};
    GET_books {| q_page := None; q_query := None; q_id := Some bookId |};
    GET_books {| q_page := None; q_query := None; q_id := Some invalidBookId |};
    PUT_books bookId test_update;
    PUT_books invalidBookId test_update;
    DELETE_books bookId;
    DELETE_books invalidBookId ].

(** What the test file expects of the ten answers. *)
Definition book_expectations : list (Z * option string * bool) :=
  [ (201, Some "Book created", false);
    (400, Some "All fields are required", false);
    (200, None, true);
    (200, None, true);
    (200, None, false);
    (400, Some "Internal server error", false);
    (200, Some "Book updated", false);
    (400, Some "Internal server error", false);
    (200, Some "Book deleted", false);
    (400, Some "Internal server error", false) ].

(** ** The user model: the pattern of [email]

    [userSchema] gives [email] the validator
    [match: /^[a-zA-Z0-9._-]+@[a-zA-Z0-9.-]+\.[a-zA-Z]{2,4}$/].  The pattern
    is anchored at both ends, so it is tested against the whole text. *)

Inductive regex : Type :=
| Void
| Eps
| Class (accepts : ascii -> bool)
| Cat (r1 r2 : regex)
| Alt (r1 r2 : regex)
| Star (r : regex).

Definition Plus (r : regex) : regex := Cat r (Star r).

Definition Opt (r : regex) : regex := Alt Eps r.

Definition Char (c : ascii) : regex := Class (Ascii.eqb c).

Fixpoint Times (n : nat) (r : regex) : regex :=
  match n with
  | O => Eps
  | S m => Cat r (Times m r)
  end.

Fixpoint Upto (n : nat) (r : regex) : regex :=
  match n with
  | O => Eps
  | S m => Opt (Cat r (Upto m r))
  end.

(** [r{lo,hi}] *)
Definition Repeat (lo hi : nat) (r : regex) : regex :=
  Cat (Times lo r) (Upto (hi - lo) r).

Definition in_range (lo hi c : ascii) : bool :=
  ((N_of_ascii lo <=? N_of_ascii c) && (N_of_ascii c <=? N_of_ascii hi))%N.

(** [[a-zA-Z]] *)
Definition letter (c : ascii) : bool :=
  in_range "a" "z" c || in_range "A" "Z" c.

(** [[a-zA-Z0-9._-]] *)
Definition local_char (c : ascii) : bool :=
  in_range "a" "z" c || in_range "A" "Z" c || in_range "0" "9" c
  || Ascii.eqb c "." || Ascii.eqb c "_" || Ascii.eqb c "-".

(** [[a-zA-Z0-9.-]] *)
Definition domain_char (c : ascii) : bool :=
  in_range "a" "z" c || in_range "A" "Z" c || in_range "0" "9" c
  || Ascii.eqb c "." || Ascii.eqb c "-".

Definition emailPattern : regex :=
  Cat (Plus (Class local_char))
      (Cat (Char "@")
           (Cat (Plus (Class domain_char))
                (Cat (Char ".") (Repeat 2 4 (Class letter))))).

(** Matching by derivatives. *)
Fixpoint nullable (r : regex) : bool :=
  match r with
  | Void => false
  | Eps => true
  | Class _ => false
  | Cat r1 r2 => nullable r1 && nullable r2
  | Alt r1 r2 => nullable r1 || nullable r2
  | Star _ => true
  end.

Fixpoint deriv (c : ascii) (r : regex) : regex :=
  match r with
  | Void => Void
  | Eps => Void
  | Class accepts => if accepts c then Eps else Void
  | Cat r1 r2 =>
      if nullable r1
      then Alt (Cat (deriv c r1) r2) (deriv c r2)
      else Cat (deriv c r1) r2
  | Alt r1 r2 => Alt (deriv c r1) (deriv c r2)
  | Star r1 => Cat (deriv c r1) (Star r1)
  end.

Fixpoint matches (r : regex) (s : list ascii) : bool :=
  match s with
  | [] => nullable r
  | c :: s' => matches (deriv c r) s'
  end.

(** [pattern.test(text)] for an anchored pattern *)
Definition regex_test (r : regex) (s : string) : bool :=
  matches r (list_ascii_of_string s).

(** The texts a pattern denotes. *)
Inductive Matches : regex -> list ascii -> Prop :=
| MEps : Matches Eps []
| MClass (accepts : ascii -> bool) (c : ascii) :
    accepts c = true -> Matches (Class accepts) [c]
| MCat (r1 r2 : regex) (s1 s2 : list ascii) :
    Matches r1 s1 -> Matches r2 s2 -> Matches (Cat r1 r2) (s1 ++ s2)
| MAltL (r1 r2 : regex) (s : list ascii) :
    Matches r1 s -> Matches (Alt r1 r2) s
| MAltR (r1 r2 : regex) (s : list ascii) :
    Matches r2 s -> Matches (Alt r1 r2) s
| MStarNil (r : regex) : Matches (Star r) []
| MStarApp (r : regex) (s1 s2 : list ascii) :
    Matches r s1 -> Matches (Star r) s2 -> Matches (Star r) (s1 ++ s2).

(** The options of the [email] path. *)
Record email_options : Type := {
  e_type : schema_type;
  e_required : bool;
  e_unique : bool;
  e_match : regex
}.

Record user_schema : Type := {
  us_name : path_options;
  us_email : email_options;
  us_password : path_options;
  us_versionKey : bool
}.

Definition userSchema : user_schema := {|
  us_name := {| type := SString; required := true |};
  us_email := {| e_type := SString; e_required := true; e_unique := true;
                 e_match := emailPattern |};
  us_password := {| type := SString; required := true |};
  us_versionKey := false
|}.

(** The [match] validator of a text path: a value that is not empty must
    pass the pattern. *)
Definition match_failure (re : regex) (path : string) (v : slot string)
  : list (string * string) :=
  match v with
  | Value s =>
      if (s =? "")%string || regex_test re s then []
      else [(path, "Path `" ++ path ++ "` is invalid (" ++ s ++ ").")]
  | _ => []
  end.

(** The properties of a user. *)
Record user_body : Type := {
  r_name : option string;
  r_email : option string;
  r_password : option string
}.

(** The failures of a user against [userSchema]: for each path its
    validators in turn, the first that fails speaking for the path. *)
Definition user_failures (b : user_body) : list (string * string) :=
  (required_string (us_name userSchema) "name" (castString (r_name b))
   ++ match required_string
              {| type := e_type (us_email userSchema);
                 required := e_required (us_email userSchema) |}
              "email" (castString (r_email b)) with
      | [] => match_failure (e_match (us_email userSchema)) "email"
                            (castString (r_email b))
      | fs => fs
      end
   ++ required_string (us_password userSchema) "password"
                      (castString (r_password b)))%list.

(** The form of an accepted address: a local part, [@], a domain, a dot and
    an ending of two to four letters. *)
Definition email_form (s : string) : Prop :=
  exists l d t : list ascii,
    list_ascii_of_string s = (l ++ "@"%char :: d ++ "."%char :: t)%list
    /\ l <> [] /\ forallb local_char l = true
    /\ d <> [] /\ forallb domain_char d = true
    /\ (2 <= List.length t <= 4)%nat /\ forallb letter t = true.

(** * Properties *)

(** ** Text and patterns *)

Lemma truthy_some (v : option string) :
  truthy v = true <-> exists s, v = Some s /\ s <> "".
Proof.
  destruct v as [s|]; simpl.
  - rewrite negb_true_iff. split.
    + intros E. exists s. split; [reflexivity|].
      intros ->. discriminate.
    + intros (s' & [= <-] & Hs). apply String.eqb_neq. exact Hs.
  - split; [discriminate|]. intros (s & [=] & _).
Qed.

Lemma truthy_given (v : option string) : truthy v = true <-> given v.
Proof. apply truthy_some. Qed.

Lemma falsy_absent_or_empty (v : option string) :
  truthy v = false <-> absent_or_empty v.
Proof.
  unfold absent_or_empty. destruct v as [s|]; simpl.
  - rewrite negb_false_iff, String.eqb_eq. split.
    + intros ->. now right.
    + intros [[=]|[= ->]]. reflexivity.
  - split; [now left|reflexivity].
Qed.

Lemma truthy_text (s : string) : s <> "" -> truthy (Some s) = true.
Proof. intros Hs. apply truthy_some. eauto. Qed.

Lemma same_letter_spec (c d : ascii) :
  same_letter c d = true <-> Canonicalize c = Canonicalize d.
Proof. unfold same_letter. apply N.eqb_eq. Qed.

Lemma match_here_spec (p : list ascii) :
  forall s, match_here p s = true <->
            exists mid post, s = mid ++ post /\
              Forall2 (fun c d => Canonicalize c = Canonicalize d)
                      p (list_ascii_of_string mid).
Proof.
  induction p as [|c p IH]; intros s.
  - simpl. split; [|reflexivity]. intros _. exists "", s. split; [reflexivity|constructor].
  - destruct s as [|d s]; simpl.
    + split; [discriminate|]. intros (mid & post & E & F).
      destruct mid; simpl in *; [inversion F|discriminate].
    + rewrite andb_true_iff, same_letter_spec, IH. split.
      * intros (Hc & mid & post & -> & F). exists (String d mid), post.
        split; [reflexivity|]. simpl. constructor; assumption.
      * intros (mid & post & E & F). destruct mid as [|d' mid]; simpl in *; [inversion F|].
        injection E as <- ->. inversion F; subst. split; [assumption|]. eauto.
Qed.

Lemma search_spec (p : list ascii) :
  forall s, search p s = true <->
            exists pre rest, s = pre ++ rest /\ match_here p rest = true.
Proof.
  induction s as [|d s IH]; simpl.
  - rewrite orb_false_r. split.
    + intros M. exists "", "". split; [reflexivity|assumption].
    + intros (pre & rest & E & M). destruct pre; simpl in E; [|discriminate].
      subst rest. assumption.
  - rewrite orb_true_iff, IH. split.
    + intros [M | (pre & rest & -> & M)].
      * exists "", (String d s). split; [reflexivity|assumption].
      * exists (String d pre), rest. split; [reflexivity|assumption].
    + intros (pre & rest & E & M). destruct pre as [|d' pre]; simpl in E.
      * subst rest. left. assumption.
      * injection E as <- ->. right. eauto.
Qed.

(** The search the expression of a literal text performs is the search for
    a substring, case being ignored. *)
Lemma search_contains_ci (q s : string) :
  search (list_ascii_of_string q) s = true <-> contains_ci q s.
Proof.
  rewrite search_spec. unfold contains_ci, same_text_ci. split.
  - intros (pre & rest & -> & M). apply match_here_spec in M.
    destruct M as (mid & post & -> & F). eauto.
  - intros (pre & mid & post & -> & F). exists pre, (mid ++ post).
    split; [reflexivity|]. apply match_here_spec. eauto.
Qed.

Lemma literal_pattern_plain (q : string) :
  plain_text q = true -> literal_pattern q = Some (list_ascii_of_string q).
Proof.
  unfold plain_text. induction q as [|c q IH]; simpl; [reflexivity|].
  rewrite andb_true_iff, negb_true_iff. intros [Hc Hq].
  assert (Hb : Ascii.eqb c "\" = false).
  { destruct (Ascii.eqb_spec c "\"%char) as [->|]; [|reflexivity].
    vm_compute in Hc. discriminate. }
  rewrite Hb, Hc, (IH Hq). reflexivity.
Qed.

(** ** The collection *)

Lemma has_id_true (i : ObjectId) (d : document) : has_id i d = true <-> _id d = i.
Proof. unfold has_id. apply N.eqb_eq. Qed.

Lemma has_id_false (i : ObjectId) (d : document) : has_id i d = false <-> _id d <> i.
Proof. unfold has_id. apply N.eqb_neq. Qed.

Lemma find_absent (i : ObjectId) (st : store) :
  find (has_id i) st = None <-> ~ In i (map _id st).
Proof.
  induction st as [|d r IH]; simpl.
  - split; [tauto|reflexivity].
  - destruct (has_id i d) eqn:E.
    + apply has_id_true in E. split; [discriminate|]. intros N. exfalso. apply N. now left.
    + apply has_id_false in E. rewrite IH. tauto.
Qed.

Lemma existsb_has_id (i : ObjectId) (st : store) :
  existsb (has_id i) st = false <-> ~ In i (map _id st).
Proof.
  rewrite <- find_absent. induction st as [|d r IH]; simpl; [tauto|].
  destruct (has_id i d); simpl; [split; discriminate|exact IH].
Qed.

Lemma update_first_absent (i : ObjectId) (u : update) (st : store) :
  find (has_id i) st = None -> update_first i u st = (None, st).
Proof.
  induction st as [|d r IH]; simpl; [reflexivity|].
  destruct (has_id i d); [discriminate|].
  intros A. rewrite (IH A). reflexivity.
Qed.

Lemma update_first_ids (i : ObjectId) (u : update) (st : store) :
  map _id (snd (update_first i u st)) = map _id st.
Proof.
  induction st as [|d r IH]; simpl; [reflexivity|].
  destruct (has_id i d); simpl; [reflexivity|].
  destruct (update_first i u r) as [found r']. simpl in *. now rewrite IH.
Qed.

Lemma remove_first_absent (i : ObjectId) (st : store) :
  find (has_id i) st = None -> remove_first i st = (None, st).
Proof.
  induction st as [|d r IH]; simpl; [reflexivity|].
  destruct (has_id i d); [discriminate|].
  intros A. rewrite (IH A). reflexivity.
Qed.

Lemma filter_out_absent (i : ObjectId) (st : store) :
  ~ In i (map _id st) -> filter (fun d => negb (has_id i d)) st = st.
Proof.
  induction st as [|d r IH]; simpl; [reflexivity|].
  intros N. destruct (has_id i d) eqn:E; simpl.
  - apply has_id_true in E. exfalso. apply N. now left.
  - rewrite IH; [reflexivity|]. intros I. apply N. now right.
Qed.

(** In a collection with unique identifiers, removing the first document
    with an identifier removes every document with it and keeps the others
    in place. *)
Lemma remove_first_present (i : ObjectId) (st : store) (d : document) :
  store_ok st -> find (has_id i) st = Some d ->
  remove_first i st = (Some d, filter (fun d' => negb (has_id i d')) st).
Proof.
  unfold store_ok. induction st as [|d0 r IH]; simpl; [discriminate|].
  intros U F. inversion U as [|x l Nin U']; subst.
  destruct (has_id i d0) eqn:E; simpl.
  - injection F as <-. apply has_id_true in E. subst i.
    rewrite filter_out_absent; [reflexivity|assumption].
  - rewrite (IH U' F). reflexivity.
Qed.

Lemma find_filter_out (i : ObjectId) (st : store) :
  find (has_id i) (filter (fun d => negb (has_id i d)) st) = None.
Proof.
  induction st as [|d r IH]; simpl; [reflexivity|].
  destruct (has_id i d) eqn:E; simpl; [exact IH|].
  rewrite E. exact IH.
Qed.

Lemma unique_by_id (st : store) (a b : document) :
  store_ok st -> In a st -> In b st -> _id a = _id b -> a = b.
Proof.
  unfold store_ok. induction st as [|d r IH]; simpl; [tauto|].
  intros U Ia Ib E. inversion U as [|x l Nin U']; subst.
  destruct Ia as [<-|Ia], Ib as [<-|Ib]; auto.
  - exfalso. apply Nin. rewrite E. now apply in_map.
  - exfalso. apply Nin. rewrite <- E. now apply in_map.
Qed.

(** In a collection with unique identifiers, the lookup of a stored
    record's identifier finds that record. *)
Lemma find_unique (st : store) (d : document) :
  store_ok st -> In d st -> find (has_id (_id d)) st = Some d.
Proof.
  intros U I. destruct (find (has_id (_id d)) st) as [d'|] eqn:F.
  - apply find_some in F. destruct F as [I' E]. apply has_id_true in E.
    f_equal. now apply (unique_by_id st).
  - apply find_absent in F. exfalso. apply F. now apply in_map.
Qed.

Lemma store_ok_filter (f : document -> bool) (st : store) :
  store_ok st -> store_ok (filter f st).
Proof.
  unfold store_ok. induction st as [|d r IH]; simpl; [trivial|].
  intros U. inversion U as [|x l Nin U']; subst.
  destruct (f d); simpl; [|auto].
  constructor; [|auto]. intros I. apply Nin.
  apply in_map_iff in I. destruct I as (x & E & I). apply filter_In in I.
  apply in_map_iff. exists x. tauto.
Qed.

Lemma store_ok_remove_first (i : ObjectId) (st : store) :
  store_ok st -> store_ok (snd (remove_first i st)).
Proof.
  intros U. destruct (find (has_id i) st) as [d|] eqn:F.
  - rewrite (remove_first_present i st d U F). simpl. now apply store_ok_filter.
  - rewrite (remove_first_absent i st F). exact U.
Qed.

Lemma store_ok_append (st : store) (d : document) :
  store_ok st -> existsb (has_id (_id d)) st = false -> store_ok (st ++ [d])%list.
Proof.
  unfold store_ok. intros U A. apply existsb_has_id in A.
  rewrite map_app. simpl. induction (map _id st) as [|x l IH]; simpl.
  - constructor; [simpl; tauto|constructor].
  - inversion U as [|y l' Nin U']; subst. constructor.
    + rewrite in_app_iff. simpl. intros [I|[E|[]]]; [tauto|].
      apply A. now left.
    + apply IH; [assumption|]. intros I. apply A. now right.
Qed.

Lemma validate_throws (c : candidate) (e : error) :
  validate c = Throw e -> exists fs, e = ValidationError modelName fs.
Proof.
  unfold validate.
  destruct (c_title c), (c_author c), (c_isbn c), (c_description c),
    (c_publishedDate c), (failures_of c);
    intros E; try discriminate; injection E as <-; eauto.
Qed.

Lemma validate_ok (c : candidate) (d : document) :
  validate c = Ok d ->
  _id d = c_id c /\ c_title c = Value (title d) /\ c_author c = Value (author d)
  /\ c_isbn c = Value (isbn d) /\ c_description c = Value (description d)
  /\ exists p, publishedDate d = Some p /\ c_publishedDate c = Value p.
Proof.
  unfold validate.
  destruct (c_title c), (c_author c), (c_isbn c), (c_description c),
    (c_publishedDate c), (failures_of c);
    intros E; try discriminate; injection E as <-; simpl; eauto 10.
Qed.

(** ** The handlers, run

    Each handler unfolded into the outcome of its store calls. *)

Section Handlers.

Context `{Env}.

Ltac run :=
  unfold post_books, get_books, put_books, delete_books, try_catch,
    post_books_block, get_books_block, put_books_block, delete_books_block,
    save, findById, find_where, find_skip_limit, findByIdAndUpdate,
    findByIdAndDelete, cast_id, bind, lift, ret;
  simpl.

Lemma post_books_run (fresh : ObjectId) (b : book_body) (st : store) :
  post_books fresh b st =
  if negb (truthy (b_title b)) || negb (truthy (b_author b))
     || negb (truthy (b_isbn b)) || negb (truthy (b_publishedDate b))
  then (res 400 (JMessage "All fields are required"), st)
  else match validate (BookModel_new fresh b) with
       | Throw e => (res 400 (JMessage (message e)), st)
       | Ok d =>
           if existsb (has_id (_id d)) st
           then (res 400 (JMessage "E11000 duplicate key error"), st)
           else (res 201 (JMessageBook "Book created" (Some d)), (st ++ [d])%list)
       end.
Proof.
  run.
  destruct (negb (truthy (b_title b)) || negb (truthy (b_author b))
            || negb (truthy (b_isbn b)) || negb (truthy (b_publishedDate b)));
    [reflexivity|].
  change (BookModel_new fresh _) with (BookModel_new fresh b).
  destruct (validate (BookModel_new fresh b)) as [d|e]; [|reflexivity].
  destruct (existsb (has_id (_id d)) st); reflexivity.
Qed.

Lemma get_books_run (r : books_query) (st : store) :
  get_books r st = run_mode (select_mode r) r st.
Proof.
  unfold select_mode, run_mode, by_id, by_query, by_page. run.
  destruct (truthy (q_id r)).
  - destruct (castObjectId (text (q_id r))) as [i|]; [|reflexivity].
    destruct (find (has_id i) st); reflexivity.
  - destruct (truthy (q_query r)).
    + destruct (RegExp_i (text (q_query r))); reflexivity.
    + destruct (q_page r) as [p|]; simpl.
      * destruct ((p - 1) * 4 <? 0); reflexivity.
      * destruct (findSkipNaN st 4); reflexivity.
Qed.

Lemma put_books_run (id : string) (b : book_body) (st : store) :
  put_books id b st =
  match castObjectId id with
  | None =>
      (res 400 (JMessageError "Internal server error"
                  (cast_message "ObjectId" id "_id")), st)
  | Some i =>
      match castUpdate b with
      | Throw e => (res 400 (JMessageError "Internal server error" (message e)), st)
      | Ok u =>
          (res 200 (JMessageBook "Book updated" (fst (update_first i u st))),
           snd (update_first i u st))
      end
  end.
Proof.
  run. destruct (castObjectId id) as [i|]; [|reflexivity].
  destruct (castUpdate b) as [u|e]; [|reflexivity].
  destruct (update_first i u st); reflexivity.
Qed.

Lemma delete_books_run (id : string) (st : store) :
  delete_books id st =
  match castObjectId id with
  | None =>
      (res 400 (JMessageError "Internal server error"
                  (cast_message "ObjectId" id "_id")), st)
  | Some i =>
      (res 200 (JMessageBook "Book deleted" (fst (remove_first i st))),
       snd (remove_first i st))
  end.
Proof.
  run. destruct (castObjectId id) as [i|]; [|reflexivity].
  destruct (remove_first i st); reflexivity.
Qed.


(** An update body casts exactly when its date, if given and not empty,
    parses. *)
Lemma castUpdate_castable (b : book_body) :
  castable b <-> exists u, castUpdate b = Ok u.
Proof.
  unfold castable, castUpdate, castDate.
  destruct (b_publishedDate b) as [s|].
  - destruct (String.eqb_spec s "") as [->|Hs].
    + split; [eauto|]. intros _ s [= <-] N. now destruct N.
    + destruct (parseDate s) as [d|] eqn:P.
      * split; [eauto|]. intros _ s' [= <-] _. congruence.
      * split; [|intros [u [=]]]. intros C. now destruct (C s eq_refl Hs).
  - split; [eauto|]. intros _ s [=].
Qed.

(** Every handler keeps identifiers unique. *)
Lemma handlers_keep_store_ok (fresh : ObjectId) (b : book_body) (r : books_query)
      (id : string) (st : store) :
  store_ok st ->
  store_ok (snd (post_books fresh b st)) /\ store_ok (snd (get_books r st))
  /\ store_ok (snd (put_books id b st)) /\ store_ok (snd (delete_books id st)).
Proof.
  intros U. repeat split.
  - rewrite post_books_run.
    destruct (_ || _); [exact U|].
    destruct (validate _) as [d|e]; [|exact U].
    destruct (existsb _ st) eqn:A; [exact U|]. simpl. now apply store_ok_append.
  - rewrite get_books_run. unfold run_mode, by_id, by_query, by_page.
    destruct (select_mode r).
    + destruct (castObjectId _); [destruct (find _ st)|]; exact U.
    + destruct (RegExp_i _); exact U.
    + destruct (q_page r) as [p|];
        [destruct (_ <? 0)|destruct (findSkipNaN st 4)]; exact U.
  - rewrite put_books_run. destruct (castObjectId id) as [i|]; [|exact U].
    destruct (castUpdate b) as [u|e]; [|exact U]. simpl.
    unfold store_ok. rewrite update_first_ids. exact U.
  - rewrite delete_books_run. destruct (castObjectId id) as [i|]; [|exact U].
    simpl. now apply store_ok_remove_first.
Qed.


Lemma validation_message_differs (fs : list (string * string)) :
  message (ValidationError modelName fs) <> "All fields are required".
Proof. simpl. discriminate. Qed.

(** ** Creating a book *)

(** C1. When one of [title], [author], [isbn], [publishedDate] is absent or
    empty, [POST /books] answers 400 with the message "All fields are
    required" and the collection is left as it was.  [description] is not
    part of that check: when the four are given, the answer is never that
    message, whatever [description] is, and an absent [description] is
    answered with the schema's own failure. *)
Theorem create_requires_four_fields (fresh : ObjectId) (b : book_body) (st : store) :
  (absent_or_empty (b_title b) \/ absent_or_empty (b_author b)
   \/ absent_or_empty (b_isbn b) \/ absent_or_empty (b_publishedDate b) ->
   post_books fresh b st = (res 400 (JMessage "All fields are required"), st))
  /\ (given (b_title b) -> given (b_author b) -> given (b_isbn b) ->
      given (b_publishedDate b) ->
      json (fst (post_books fresh b st)) <> JMessage "All fields are required"
      /\ (b_description b = None ->
          exists fs, In ("description", required_message "description") fs
            /\ post_books fresh b st
               = (res 400 (JMessage (message (ValidationError modelName fs))), st))).
Proof.
  rewrite post_books_run. split.
  - rewrite <- !falsy_absent_or_empty. intros Hm.
    assert (E : negb (truthy (b_title b)) || negb (truthy (b_author b))
                || negb (truthy (b_isbn b)) || negb (truthy (b_publishedDate b))
                = true).
    { rewrite !orb_true_iff, !negb_true_iff. tauto. }
    rewrite E. reflexivity.
  - rewrite <- !truthy_given. intros -> -> -> ->. simpl. split.
    + destruct (validate (BookModel_new fresh b)) as [d|e] eqn:V.
      * destruct (existsb (has_id (_id d)) st); simpl; discriminate.
      * destruct (validate_throws _ _ V) as (fs & ->). simpl. discriminate.
    + intros D. unfold validate, failures_of, BookModel_new. rewrite D. simpl.
      destruct (castString (b_title b)), (castString (b_author b)),
        (castString (b_isbn b)), (castDate (b_publishedDate b));
        (eexists; split; [|reflexivity]);
        rewrite ?in_app_iff; simpl; tauto.
Qed.


(** ** Reading books *)

(** C4, amended.  [GET /books] runs exactly one mode, chosen by priority:
    with [id] given, that is present and not empty, it fetches by identifier
    and the answer does not depend on [query] or [page]; otherwise with
    [query] given it searches and the answer does not depend on [page];
    otherwise it lists a page. *)
Theorem mode_priority (r : books_query) (st : store) :
  get_books r st = run_mode (select_mode r) r st
  /\ (given (q_id r) ->
      select_mode r = IdMode
      /\ forall page query,
           get_books {| q_page := page; q_query := query; q_id := q_id r |} st
           = by_id (text (q_id r)) st)
  /\ (~ given (q_id r) -> given (q_query r) ->
      select_mode r = QueryMode
      /\ forall page,
           get_books {| q_page := page; q_query := q_query r; q_id := q_id r |} st
           = by_query (text (q_query r)) st)
  /\ (~ given (q_id r) -> ~ given (q_query r) ->
      select_mode r = PageMode /\ get_books r st = by_page (q_page r) st).
Proof.
  rewrite <- !truthy_given. unfold select_mode.
  split; [apply get_books_run|]. split; [|split].
  - intros I. rewrite I. split; [reflexivity|]. intros page query.
    rewrite get_books_run. unfold select_mode. simpl. rewrite I. reflexivity.
  - intros I Q. apply not_true_is_false in I. rewrite I, Q.
    split; [reflexivity|]. intros page.
    rewrite get_books_run. unfold select_mode. simpl. rewrite I, Q. reflexivity.
  - intros I Q. apply not_true_is_false in I, Q. rewrite I, Q.
    split; [reflexivity|].
    rewrite get_books_run. unfold select_mode. rewrite I, Q. reflexivity.
Qed.

(** C5, amended.  Fetching by an identifier that the request gives and that
    is not empty.  When it casts to the identifier of a stored record, the
    answer is 200 with exactly that record: the record itself in a
    collection with unique identifiers, the first record with the
    identifier in any collection.  When it casts to an identifier no record
    has, the answer is 400 with the message "Book Not Found".  When it does
    not cast, the answer is 400 with the message "Internal server error".
    The collection is left as it was. *)
Theorem fetch_by_id (id : string) (page : option Z) (query : option string)
        (st : store) :
  id <> "" ->
  let answer := get_books {| q_page := page; q_query := query; q_id := Some id |} st in
  (forall d, store_ok st -> In d st -> castObjectId id = Some (_id d) ->
             answer = (res 200 (JBook d), st))
  /\ (forall i d, castObjectId id = Some i -> find (has_id i) st = Some d ->
                  answer = (res 200 (JBook d), st) /\ In d st /\ _id d = i)
  /\ (forall i, castObjectId id = Some i -> ~ In i (map _id st) ->
                answer = (res 400 (JMessage "Book Not Found"), st))
  /\ (castObjectId id = None ->
      exists text,
        answer = (res 400 (JMessageError "Internal server error" text), st)).
Proof.
  intros Hid answer. subst answer. rewrite get_books_run.
  unfold select_mode, run_mode, by_id. simpl q_id.
  rewrite (truthy_text id Hid). simpl text. split; [|split; [|split]].
  - intros d U I ->. rewrite (find_unique st d U I). reflexivity.
  - intros i d -> F. rewrite F. split; [reflexivity|].
    apply find_some in F. destruct F as [I E]. apply has_id_true in E. auto.
  - intros i -> A. apply find_absent in A. rewrite A. reflexivity.
  - intros ->. eauto.
Qed.

(** C2, amended.  For a search text that is not empty and holds no pattern
    syntax, the search answers 200 with the records of the collection, in
    its order and all of them, whose title or author contains the text as a
    substring with case ignored. *)
Theorem search_plain_text (q : string) (page : option Z) (id : option string)
        (st : store) :
  ~ given id -> q <> "" -> plain_text q = true ->
  exists f : document -> bool,
    (forall d, f d = true <-> contains_ci q (title d) \/ contains_ci q (author d))
    /\ get_books {| q_page := page; q_query := Some q; q_id := id |} st
       = (res 200 (JBooks (filter f st)), st)
    /\ (forall d, In d (filter f st) <->
                  In d st /\ (contains_ci q (title d) \/ contains_ci q (author d))).
Proof.
  rewrite <- truthy_given. intros I Q P. apply not_true_is_false in I.
  set (p := list_ascii_of_string q).
  exists (fun d => search p (title d) || search p (author d)).
  assert (F : forall d, search p (title d) || search p (author d) = true <->
                        contains_ci q (title d) \/ contains_ci q (author d)).
  { intros d. rewrite orb_true_iff. unfold p. now rewrite !search_contains_ci. }
  split; [exact F|]. split.
  - rewrite get_books_run. unfold select_mode, run_mode, by_query. simpl.
    rewrite I. apply String.eqb_neq in Q. rewrite Q. simpl.
    unfold RegExp_i. rewrite (literal_pattern_plain q P). reflexivity.
  - intros d. rewrite filter_In, F. reflexivity.
Qed.

(** C3. For a page number [p] of at least 1, with neither [id] nor [query]
    given, the listing answers 200 with the records at positions
    [(p - 1) * 4] to [(p - 1) * 4 + 3] of the collection, four at most.  When
    the collection holds more than four records, page 1 has exactly four and
    page 2 starts four records further. *)
Theorem page_of_four (p : Z) (query id : option string) (st : store) :
  1 <= p -> ~ given id -> ~ given query ->
  exists l,
    get_books {| q_page := Some p; q_query := query; q_id := id |} st
    = (res 200 (JBooks l), st)
    /\ is_page p st l
    /\ (List.length l <= 4)%nat
    /\ (p = 1 -> (4 < List.length st)%nat ->
        List.length l = 4%nat /\ forall i, (i < 4)%nat -> nth_error l i = nth_error st i)
    /\ (p = 2 -> (4 < List.length st)%nat ->
        (1 <= List.length l)%nat
        /\ forall i, (i < 4)%nat -> nth_error l i = nth_error st (4 + i)).
Proof.
  rewrite <- !truthy_given. intros Hp I Q. apply not_true_is_false in I, Q.
  exists (firstn 4 (skipn (Z.to_nat ((p - 1) * 4)) st)).
  assert (P : is_page p st (firstn 4 (skipn (Z.to_nat ((p - 1) * 4)) st))).
  { intros i. rewrite nth_error_firstn, nth_error_skipn. reflexivity. }
  split; [|split; [exact P|split; [|split]]].
  - rewrite get_books_run. unfold select_mode, run_mode, by_page. simpl.
    rewrite I, Q.
    assert (E : ((p - 1) * 4 <? 0) = false) by (apply Z.ltb_ge; lia).
    rewrite E. reflexivity.
  - rewrite length_firstn. lia.
  - intros -> L. change (Z.to_nat ((1 - 1) * 4)) with 0%nat.
    change (skipn 0 st) with st. split.
    + rewrite length_firstn. lia.
    + intros i Hi. rewrite nth_error_firstn.
      apply Nat.ltb_lt in Hi. rewrite Hi. reflexivity.
  - intros -> L. change (Z.to_nat ((2 - 1) * 4)) with 4%nat. split.
    + rewrite length_firstn, length_skipn. lia.
    + intros i Hi. rewrite nth_error_firstn, nth_error_skipn.
      apply Nat.ltb_lt in Hi. rewrite Hi. reflexivity.
Qed.

(** C10. [GET /books] leaves the collection as it was, in each of its modes
    and whether it answers 200 or 400. *)
Theorem get_books_reads_only (r : books_query) (st : store) :
  snd (get_books r st) = st
  /\ snd (run_mode IdMode r st) = st
  /\ snd (run_mode QueryMode r st) = st
  /\ snd (run_mode PageMode r st) = st.
Proof.
  assert (M : forall m, snd (run_mode m r st) = st).
  { intros m. unfold run_mode, by_id, by_query, by_page. destruct m.
    - destruct (castObjectId _); [destruct (find _ st)|]; reflexivity.
    - destruct (RegExp_i _); reflexivity.
    - destruct (q_page r) as [p|];
        [destruct (_ <? 0)|destruct (findSkipNaN st 4)]; reflexivity. }
  rewrite get_books_run. auto.
Qed.

(** ** Updating and deleting *)

(** C6, amended.  For an identifier that casts and that no record has,
    [DELETE /books/:id] answers 200 with a null record, and so does
    [PUT /books/:id] whenever the fields of its body can be cast; the
    collection is left as it was.  A body whose date does not parse is
    answered 400 instead. *)
Theorem absent_id_is_success (id : string) (i : ObjectId) (b : book_body)
        (st : store) :
  castObjectId id = Some i -> find (has_id i) st = None ->
  delete_books id st = (res 200 (JMessageBook "Book deleted" None), st)
  /\ (castable b ->
      put_books id b st = (res 200 (JMessageBook "Book updated" None), st))
  /\ (~ castable b ->
      status (fst (put_books id b st)) = 400 /\ snd (put_books id b st) = st).
Proof.
  intros C A. rewrite delete_books_run, put_books_run, C.
  rewrite (remove_first_absent i st A). split; [reflexivity|]. split.
  - intros K. apply castUpdate_castable in K. destruct K as (u & ->).
    rewrite (update_first_absent i u st A). reflexivity.
  - intros K. destruct (castUpdate b) as [u|e] eqn:E.
    + exfalso. apply K. apply castUpdate_castable. eauto.
    + split; reflexivity.
Qed.

(** C8. In a collection with unique identifiers, deleting the record an
    identifier maps to answers 200 with that record, a fetch by the same
    identifier afterwards answers 400 "Book Not Found", and the collection
    afterwards holds exactly the other records, in their order. *)
Theorem delete_then_fetch (id : string) (i : ObjectId) (d : document)
        (page : option Z) (query : option string) (st : store) :
  store_ok st -> id <> "" -> castObjectId id = Some i ->
  find (has_id i) st = Some d ->
  let st' := snd (delete_books id st) in
  fst (delete_books id st) = res 200 (JMessageBook "Book deleted" (Some d))
  /\ get_books {| q_page := page; q_query := query; q_id := Some id |} st'
     = (res 400 (JMessage "Book Not Found"), st')
  /\ ~ In d st'
  /\ (forall d', In d' st' <-> In d' st /\ d' <> d)
  /\ st' = filter (fun d' => negb (has_id i d')) st.
Proof.
  intros U Hid C F st'. subst st'. rewrite delete_books_run, C.
  rewrite (remove_first_present i st d U F). simpl fst. simpl snd.
  pose proof (find_some _ _ F) as [Id Ed]. apply has_id_true in Ed.
  assert (M : forall d', In d' (filter (fun x => negb (has_id i x)) st) <->
                         In d' st /\ d' <> d).
  { intros d'. rewrite filter_In, negb_true_iff, has_id_false. split.
    - intros [I' N]. split; [assumption|]. intros ->. contradiction.
    - intros [I' N]. split; [assumption|]. intros E. apply N.
      apply (unique_by_id st); congruence. }
  split; [reflexivity|]. split; [|split; [|split; [exact M|reflexivity]]].
  - rewrite get_books_run. unfold select_mode, run_mode, by_id. simpl q_id.
    rewrite (truthy_text id Hid). simpl text. rewrite C, find_filter_out.
    reflexivity.
  - intros I'. apply M in I'. now destruct I'.
Qed.

(** ** Statuses *)


End Handlers.

(** * The properties at work on the sample environment *)

(** The cases of the repository's test suite. *)
Example test_create_book :
  status (fst (@post_books Sample.env (Sample.oid Sample.id9) Sample.sample_body []))
  = 201.
Proof. reflexivity. Qed.

Example test_create_book_missing_fields :
  fst (@post_books Sample.env (Sample.oid Sample.id9)
         {| b_title := None; b_author := None; b_isbn := None;
            b_description := None; b_publishedDate := None |} Sample.shelf)
  = res 400 (JMessage "All fields are required").
Proof. reflexivity. Qed.

Example test_invalid_id :
  let bad := "invalid_id" in
  (exists text,
      fst (@get_books Sample.env
             {| q_page := None; q_query := None; q_id := Some bad |} Sample.shelf)
      = res 400 (JMessageError "Internal server error" text))
  /\ status (fst (@put_books Sample.env bad Sample.sample_body Sample.shelf)) = 400
  /\ status (fst (@delete_books Sample.env bad Sample.shelf)) = 400.
Proof. repeat split. eexists. reflexivity. Qed.

Example test_search_sample :
  fst (@get_books Sample.env
         {| q_page := None; q_query := Some "sample"; q_id := None |} Sample.shelf)
  = res 200 (JBooks [Sample.book (Sample.oid Sample.id1) "Sample Book" "John Doe"]).
Proof. reflexivity. Qed.

Lemma create_requires_four_fields_witness :
  let b := {| b_title := Some "Sample Book"; b_author := Some "";
              b_isbn := Some "1234567890"; b_description := None;
              b_publishedDate := Some "2023-01-01" |} in
  let b' := {| b_title := Some "Sample Book"; b_author := Some "John Doe";
               b_isbn := Some "1234567890"; b_description := None;
               b_publishedDate := Some "2023-01-01" |} in
  absent_or_empty (b_author b)
  /\ @post_books Sample.env 9%N b Sample.shelf
     = (res 400 (JMessage "All fields are required"), Sample.shelf)
  /\ json (fst (@post_books Sample.env 9%N b' Sample.shelf))
     <> JMessage "All fields are required".
Proof.
  intros b b'. split; [right; reflexivity|]. split.
  - apply (proj1 (@create_requires_four_fields Sample.env 9%N b Sample.shelf)).
    right. left. right. reflexivity.
  - apply (proj2 (@create_requires_four_fields Sample.env 9%N b' Sample.shelf));
      eexists; (split; [reflexivity|discriminate]).
Defined.


Lemma mode_priority_witness :
  let r := {| q_page := Some 1; q_query := Some "sample"; q_id := Some Sample.id2 |} in
  given (q_id r)
  /\ @get_books Sample.env r Sample.shelf
     = (res 200 (JBook (Sample.book (Sample.oid Sample.id2) "f(x) = a.b" "Jane Roe")),
        Sample.shelf).
Proof.
  intros r.
  assert (G : given (q_id r)) by (eexists; (split; [reflexivity|discriminate])).
  split; [exact G|].
  exact (proj2 (proj1 (proj2 (@mode_priority Sample.env r Sample.shelf)) G)
               (Some 1) (Some "sample")).
Defined.

Lemma search_plain_text_witness :
  exists f : document -> bool,
    @get_books Sample.env {| q_page := None; q_query := Some "JOHN"; q_id := None |}
               Sample.shelf
    = (res 200 (JBooks (filter f Sample.shelf)), Sample.shelf).
Proof.
  destruct (@search_plain_text Sample.env "JOHN" None None Sample.shelf)
    as (f & _ & E & _).
  - intros (s & D & _). discriminate D.
  - discriminate.
  - reflexivity.
  - exists f. exact E.
Defined.

Lemma page_of_four_witness :
  exists l,
    @get_books Sample.env {| q_page := Some 2; q_query := None; q_id := None |}
               Sample.six
    = (res 200 (JBooks l), Sample.six)
    /\ is_page 2 Sample.six l.
Proof.
  destruct (@page_of_four Sample.env 2 None None Sample.six) as (l & E & P & _).
  - lia.
  - intros (s & D & _). discriminate D.
  - intros (s & D & _). discriminate D.
  - exists l. split; assumption.
Defined.

Lemma absent_id_is_success_witness :
  @delete_books Sample.env Sample.id9 Sample.shelf
  = (res 200 (JMessageBook "Book deleted" None), Sample.shelf)
  /\ @put_books Sample.env Sample.id9 Sample.sample_body Sample.shelf
     = (res 200 (JMessageBook "Book updated" None), Sample.shelf).
Proof.
  destruct (@absent_id_is_success Sample.env Sample.id9 (Sample.oid Sample.id9)
              Sample.sample_body Sample.shelf eq_refl eq_refl) as (D & P & _).
  split; [exact D|]. apply P.
  intros s E _. injection E as <-. discriminate.
Defined.

Lemma sample_shelf_ok : store_ok Sample.shelf.
Proof.
  unfold store_ok. simpl. constructor.
  - simpl. intros [E|[]]. discriminate E.
  - constructor; [simpl; tauto|constructor].
Defined.

Lemma fetch_by_id_witness :
  let get := fun id => @get_books Sample.env
                         {| q_page := Some 1; q_query := None; q_id := Some id |}
                         Sample.shelf in
  get Sample.id2
  = (res 200 (JBook (Sample.book (Sample.oid Sample.id2) "f(x) = a.b" "Jane Roe")),
     Sample.shelf)
  /\ get Sample.id9 = (res 400 (JMessage "Book Not Found"), Sample.shelf)
  /\ exists text,
       get "invalid_id"
       = (res 400 (JMessageError "Internal server error" text), Sample.shelf).
Proof.
  intros get. subst get. cbv beta.
  assert (N2 : Sample.id2 <> "") by discriminate.
  assert (N9 : Sample.id9 <> "") by discriminate.
  assert (Ni : "invalid_id" <> "") by discriminate.
  split; [|split].
  - apply (proj1 (@fetch_by_id Sample.env Sample.id2 (Some 1) None Sample.shelf N2)).
    + exact sample_shelf_ok.
    + right. left. reflexivity.
    + reflexivity.
  - apply (proj1 (proj2 (proj2
             (@fetch_by_id Sample.env Sample.id9 (Some 1) None Sample.shelf N9)))
             (Sample.oid Sample.id9)).
    + reflexivity.
    + simpl. intros [E|[E|[]]]; discriminate E.
  - apply (proj2 (proj2 (proj2
             (@fetch_by_id Sample.env "invalid_id" (Some 1) None Sample.shelf Ni)))).
    reflexivity.
Defined.

Lemma delete_then_fetch_witness :
  let st' := snd (@delete_books Sample.env Sample.id1 Sample.shelf) in
  store_ok Sample.shelf
  /\ @get_books Sample.env {| q_page := None; q_query := None; q_id := Some Sample.id1 |} st'
     = (res 400 (JMessage "Book Not Found"), st').
Proof.
  intros st'. split; [exact sample_shelf_ok|].
  assert (N : Sample.id1 <> "") by discriminate.
  exact (proj1 (proj2 (@delete_then_fetch Sample.env Sample.id1 (Sample.oid Sample.id1)
                         (Sample.book (Sample.oid Sample.id1) "Sample Book" "John Doe")
                         None None Sample.shelf sample_shelf_ok N eq_refl eq_refl))).
Defined.


(** ** Where five claims do not hold as first stated *)

(** C4 as first stated fails on an identifier that is present and empty:
    the handler does not fetch by identifier, it searches. *)
Lemma empty_id_is_skipped :
  let r := {| q_page := Some 1; q_query := Some "sample"; q_id := Some "" |} in
  q_id r <> None
  /\ @get_books Sample.env r Sample.shelf = @by_query Sample.env "sample" Sample.shelf
  /\ @get_books Sample.env r Sample.shelf <> @by_id Sample.env "" Sample.shelf.
Proof.
  intros r. split; [discriminate|]. split; [reflexivity|].
  vm_compute. discriminate.
Qed.

(** C5 as first stated fails on the empty identifier: it is malformed, and
    the request that gives it is answered 200 with a page of the
    collection. *)
Lemma empty_id_is_not_fetched :
  @castObjectId Sample.env "" = None
  /\ @get_books Sample.env {| q_page := Some 1; q_query := None; q_id := Some "" |}
                Sample.shelf
     = (res 200 (JBooks Sample.shelf), Sample.shelf).
Proof. split; reflexivity. Qed.


(** C2 as first stated fails on a search text with pattern syntax: the text
    [\.] finds the record titled [f(x) = a.b], whose title and author do not
    contain that text. *)
Lemma search_with_pattern_syntax :
  let d := Sample.book (Sample.oid Sample.id2) "f(x) = a.b" "Jane Roe" in
  @get_books Sample.env {| q_page := None; q_query := Some "\."; q_id := None |}
             Sample.shelf
  = (res 200 (JBooks [d]), Sample.shelf)
  /\ ~ contains_ci "\." (title d) /\ ~ contains_ci "\." (author d).
Proof.
  intros d. split; [reflexivity|].
  split; rewrite <- search_contains_ci; vm_compute; discriminate.
Qed.

(** C6 as first stated fails on an update whose date does not parse: for an
    identifier that casts and that no record has, the answer is 400. *)
Lemma update_with_unparsable_date :
  let b := {| b_title := Some "Updated Book"; b_author := None; b_isbn := None;
              b_description := None; b_publishedDate := Some "not a date" |} in
  @castObjectId Sample.env Sample.id9 = Some (Sample.oid Sample.id9)
  /\ find (has_id (Sample.oid Sample.id9)) Sample.shelf = None
  /\ status (fst (@put_books Sample.env Sample.id9 b Sample.shelf)) = 400
  /\ @put_books Sample.env Sample.id9 b Sample.shelf
     <> (res 200 (JMessageBook "Book updated" None), Sample.shelf).
Proof.
  intros b. repeat split. vm_compute. discriminate.
Qed.

(** * Further properties of the book routes *)

Lemma find_split (i : ObjectId) (st : store) (d : document) :
  find (has_id i) st = Some d ->
  exists pre post, st = (pre ++ d :: post)%list /\ find (has_id i) pre = None
                   /\ _id d = i.
Proof.
  induction st as [|x r IH]; simpl; [discriminate|].
  destruct (has_id i x) eqn:E.
  - intros [= <-]. exists [], r. apply has_id_true in E. auto.
  - intros F. destruct (IH F) as (pre & post & -> & A & I).
    exists (x :: pre), post. simpl. rewrite E. auto.
Qed.

Lemma find_app_absent (i : ObjectId) (pre l : store) :
  find (has_id i) pre = None ->
  find (has_id i) (pre ++ l) = find (has_id i) l.
Proof.
  induction pre as [|x r IH]; simpl; [reflexivity|].
  destruct (has_id i x); [discriminate|exact IH].
Qed.

Lemma update_first_split (i : ObjectId) (u : update) (pre post : store)
      (d : document) :
  find (has_id i) pre = None -> _id d = i ->
  update_first i u (pre ++ d :: post)%list
  = (Some (apply_update u d), (pre ++ apply_update u d :: post)%list).
Proof.
  intros A I. induction pre as [|x r IH]; simpl in *.
  - apply has_id_true in I. rewrite I. reflexivity.
  - destruct (has_id i x); [discriminate|]. rewrite (IH A). reflexivity.
Qed.

Lemma remove_first_split (i : ObjectId) (pre post : store) (d : document) :
  find (has_id i) pre = None -> _id d = i ->
  remove_first i (pre ++ d :: post)%list = (Some d, (pre ++ post)%list).
Proof.
  intros A I. induction pre as [|x r IH]; simpl in *.
  - apply has_id_true in I. rewrite I. reflexivity.
  - destruct (has_id i x); [discriminate|]. rewrite (IH A). reflexivity.
Qed.

Lemma apply_update_twice (u : update) (d : document) :
  apply_update u (apply_update u d) = apply_update u d.
Proof.
  unfold apply_update. simpl.
  destruct (u_title u), (u_author u), (u_isbn u), (u_description u),
    (u_publishedDate u); reflexivity.
Qed.

Lemma given_text (v : option string) :
  given v -> v = Some (text v) /\ text v <> "".
Proof. intros (s & -> & N). auto. Qed.

Section MoreHandlers.

Context `{Env}.

(** The candidate built from a body validates exactly when the five
    properties are given and the date parses. *)
Lemma validate_new_ok (fresh : ObjectId) (b : book_body) :
  (exists d, validate (BookModel_new fresh b) = Ok d) <->
  given (b_title b) /\ given (b_author b) /\ given (b_isbn b)
  /\ given (b_description b)
  /\ exists s p, b_publishedDate b = Some s /\ s <> "" /\ parseDate s = Some p.
Proof.
  unfold validate, failures_of, BookModel_new, castDate, given. simpl.
  destruct (b_title b) as [t|], (b_author b) as [a|], (b_isbn b) as [i|],
    (b_description b) as [de|], (b_publishedDate b) as [s|]; simpl;
    try (split; [intros [d [=]]|
                 intros ((?&[=]&?)&(?&[=]&?)&(?&[=]&?)&(?&[=]&?)&(?&?&[=]&?)); fail]).
  all: try destruct (String.eqb_spec s "") as [->|Ns]; simpl.
  all: try (split; [intros [d [=]]|
                    intros (_&_&_&_&(?&?&[=]&N&?)); subst; now destruct N]).
  all: try destruct (parseDate s) as [p|] eqn:P; simpl.
  all: try (split; [intros [d [=]]|
                    intros (_&_&_&_&(?&?&[=]&_&P')); subst; congruence]).
  all: destruct (String.eqb_spec t "") as [->|Nt],
         (String.eqb_spec a "") as [->|Na],
         (String.eqb_spec i "") as [->|Ni],
         (String.eqb_spec de "") as [->|Nd]; simpl.
  all: split;
    [ try (intros [d [=]]; fail); intros _;
      repeat split; eauto 6
    | try (intros _; eauto; fail);
      intros ((?&[=]&Q1)&(?&[=]&Q2)&(?&[=]&Q3)&(?&[=]&Q4)&_); subst;
      congruence ].
Qed.

Lemma create_outcome_aux (fresh : ObjectId) (b : book_body) (st : store) :
  status (fst (post_books fresh b st)) = 201 ->
  exists d, json (fst (post_books fresh b st)) = JMessageBook "Book created" (Some d)
            /\ _id d = fresh /\ ~ In fresh (map _id st)
            /\ snd (post_books fresh b st) = (st ++ [d])%list
            /\ b_title b = Some (title d) /\ b_author b = Some (author d).
Proof.
  rewrite post_books_run.
  destruct (_ || _); [discriminate|].
  destruct (validate (BookModel_new fresh b)) as [d|e] eqn:V; [|discriminate].
  destruct (existsb (has_id (_id d)) st) eqn:A; [discriminate|]. intros _.
  exists d. apply validate_ok in V. simpl in V.
  destruct V as (Id & T & Au & _).
  rewrite Id in A. apply existsb_has_id in A. simpl.
  unfold castString in T, Au.
  destruct (b_title b); [injection T as ->|discriminate].
  destruct (b_author b); [injection Au as ->|discriminate].
  auto 7.
Qed.

Lemma create_succeeds_iff_aux (fresh : ObjectId) (b : book_body) (st : store) :
  status (fst (post_books fresh b st)) = 201 ->
  given (b_title b) /\ given (b_author b).
Proof.
  rewrite post_books_run. rewrite <- !truthy_given.
  destruct (truthy (b_title b)), (truthy (b_author b)); simpl;
    try discriminate; auto.
Qed.

(** ** Creating *)

(** X1. [POST /books] answers 201 exactly when the five properties of the
    body are given, the date parses, and no stored record has the identifier
    drawn for the new one. *)
Theorem create_succeeds_iff (fresh : ObjectId) (b : book_body) (st : store) :
  status (fst (post_books fresh b st)) = 201 <->
  given (b_title b) /\ given (b_author b) /\ given (b_isbn b)
  /\ given (b_description b)
  /\ (exists s p, b_publishedDate b = Some s /\ s <> "" /\ parseDate s = Some p)
  /\ find (has_id fresh) st = None.
Proof.
  rewrite post_books_run. split.
  - destruct (_ || _) eqn:E; [discriminate|].
    destruct (validate (BookModel_new fresh b)) as [d|e] eqn:V; [|discriminate].
    destruct (existsb (has_id (_id d)) st) eqn:A; [discriminate|]. intros _.
    assert (V' : exists d, validate (BookModel_new fresh b) = Ok d) by eauto.
    apply validate_new_ok in V'. destruct V' as (T & Au & I & D & P).
    repeat split; try assumption.
    apply validate_ok in V. destruct V as (Id & _). simpl in Id.
    rewrite Id in A. apply find_absent. now apply existsb_has_id.
  - intros (T & Au & I & D & P & F).
    assert (G : given (b_publishedDate b)).
    { destruct P as (s & p & E & N & _). exists s. auto. }
    apply truthy_given in T as T', Au as Au', I as I', G.
    rewrite T', Au', I', G. simpl.
    destruct (proj2 (validate_new_ok fresh b)) as [d V]; [auto 6|].
    rewrite V. apply validate_ok in V. destruct V as (Id & _). simpl in Id.
    rewrite Id. apply find_absent, existsb_has_id in F. rewrite F. reflexivity.
Qed.

(** X2. [POST /books] stores nothing unless it answers 201: either it
    answers 400 and the collection is as it was, or it answers 201 with a
    record that carries the identifier drawn, that no record had before, and
    the collection is the old one with that record added at its end. *)
Theorem create_outcome (fresh : ObjectId) (b : book_body) (st : store) :
  let r := fst (post_books fresh b st) in
  let st' := snd (post_books fresh b st) in
  (status r = 400 /\ st' = st /\ exists text, json r = JMessage text)
  \/ (status r = 201
      /\ exists d, json r = JMessageBook "Book created" (Some d)
                   /\ _id d = fresh /\ ~ In fresh (map _id st)
                   /\ st' = (st ++ [d])%list).
Proof.
  intros r st'. subst r st'. rewrite post_books_run.
  destruct (_ || _); [left; simpl; eauto|].
  destruct (validate (BookModel_new fresh b)) as [d|e] eqn:V;
    [|left; simpl; eauto].
  destruct (existsb (has_id (_id d)) st) eqn:A; [left; simpl; eauto|].
  right. split; [reflexivity|]. exists d.
  apply validate_ok in V. destruct V as (Id & _). simpl in Id.
  rewrite Id in A. apply existsb_has_id in A. simpl. auto.
Qed.

(** X3. A record just created is found by its identifier: when
    [POST /books] answers 201, a [GET /books] by text that casts to the
    identifier drawn answers 200 with the very record the creation
    returned. *)
Theorem create_then_fetch (fresh : ObjectId) (b : book_body) (st : store)
        (id : string) (page : option Z) (query : option string) :
  status (fst (post_books fresh b st)) = 201 ->
  id <> "" -> castObjectId id = Some fresh ->
  let st' := snd (post_books fresh b st) in
  exists d,
    json (fst (post_books fresh b st)) = JMessageBook "Book created" (Some d)
    /\ get_books {| q_page := page; q_query := query; q_id := Some id |} st'
       = (res 200 (JBook d), st').
Proof.
  intros S N C st'. subst st'.
  destruct (create_outcome_aux fresh b st S) as (d & J & Id & A & E & _).
  exists d. split; [exact J|]. rewrite E, get_books_run.
  unfold select_mode, run_mode, by_id. simpl q_id.
  rewrite (truthy_text id N). simpl text. rewrite C.
  apply find_absent in A. rewrite (find_app_absent fresh st [d] A). simpl.
  apply has_id_true in Id. rewrite Id. reflexivity.
Qed.

(** X4. Deleting a record just created gives back the collection as it was
    before the creation, and the deletion answers with the record the
    creation returned. *)
Theorem create_then_delete (fresh : ObjectId) (b : book_body) (st : store)
        (id : string) :
  status (fst (post_books fresh b st)) = 201 ->
  castObjectId id = Some fresh ->
  exists d,
    json (fst (post_books fresh b st)) = JMessageBook "Book created" (Some d)
    /\ delete_books id (snd (post_books fresh b st))
       = (res 200 (JMessageBook "Book deleted" (Some d)), st).
Proof.
  intros S C.
  destruct (create_outcome_aux fresh b st S) as (d & J & Id & A & E & _).
  exists d. split; [exact J|]. rewrite E, delete_books_run, C.
  apply find_absent in A.
  rewrite (remove_first_split fresh st [] d A Id). simpl.
  rewrite app_nil_r. reflexivity.
Qed.

Lemma append_empty (s : string) : s ++ "" = s.
Proof. induction s as [|c s IH]; simpl; [reflexivity|now rewrite IH]. Qed.

Lemma contains_ci_refl (q : string) : contains_ci q q.
Proof.
  exists "", q, "". split.
  - simpl. now rewrite append_empty.
  - unfold same_text_ci. induction (list_ascii_of_string q); constructor; auto.
Qed.

(** X5. A record just created is found by searching for its title or for
    its author, when that text holds no pattern syntax. *)
Theorem create_then_search (fresh : ObjectId) (b : book_body) (st : store)
        (q : string) (page : option Z) (id : option string) :
  status (fst (post_books fresh b st)) = 201 ->
  b_title b = Some q \/ b_author b = Some q ->
  plain_text q = true -> ~ given id ->
  let st' := snd (post_books fresh b st) in
  exists d l,
    json (fst (post_books fresh b st)) = JMessageBook "Book created" (Some d)
    /\ get_books {| q_page := page; q_query := Some q; q_id := id |} st'
       = (res 200 (JBooks l), st')
    /\ In d l.
Proof.
  intros S Q P I st'. subst st'.
  assert (G : given (Some q)).
  { apply create_succeeds_iff_aux in S. destruct S as [T A].
    destruct Q as [Q|Q]; rewrite Q in *; assumption. }
  destruct (create_outcome_aux fresh b st S) as (d & J & Id & A & E & T & Au).
  apply truthy_given in G. rewrite <- truthy_given in I.
  apply not_true_is_false in I.
  exists d. eexists. split; [exact J|]. rewrite E. split.
  - rewrite get_books_run. unfold select_mode, run_mode, by_query. simpl.
    simpl in G. rewrite I, G. unfold RegExp_i.
    rewrite (literal_pattern_plain q P). reflexivity.
  - apply filter_In. split; [apply in_or_app; right; now left|].
    apply orb_true_iff.
    destruct Q as [Q|Q]; rewrite Q in *; [left; injection T as ->
                                         |right; injection Au as ->];
      apply search_contains_ci, contains_ci_refl.
Qed.

(** ** Updating *)

(** X6. [PUT /books/:id] on the identifier of a stored record, with a body
    that casts, answers 200 with the record as updated and rewrites that
    record in place.  The updated record keeps its identifier; each text
    property the body holds replaces the stored one, an empty text
    included, and each property the body leaves out is kept. *)
Theorem update_existing (id : string) (i : ObjectId) (b : book_body)
        (u : update) (d : document) (st : store) :
  castObjectId id = Some i -> find (has_id i) st = Some d ->
  castUpdate b = Ok u ->
  exists d' pre post,
    st = (pre ++ d :: post)%list
    /\ put_books id b st
       = (res 200 (JMessageBook "Book updated" (Some d')), (pre ++ d' :: post)%list)
    /\ _id d' = _id d
    /\ title d' = or_keep (b_title b) (title d)
    /\ author d' = or_keep (b_author b) (author d)
    /\ isbn d' = or_keep (b_isbn b) (isbn d)
    /\ description d' = or_keep (b_description b) (description d)
    /\ (b_publishedDate b = None -> publishedDate d' = publishedDate d).
Proof.
  intros C F U. destruct (find_split i st d F) as (pre & post & -> & A & I).
  exists (apply_update u d), pre, post. split; [reflexivity|].
  rewrite put_books_run, C, U, (update_first_split i u pre post d A I).
  split; [reflexivity|]. split; [reflexivity|].
  unfold castUpdate in U.
  destruct (b_publishedDate b) as [s|].
  - destruct (castDate (Some s)); try discriminate; injection U as <-; simpl;
      repeat split; discriminate.
  - injection U as <-. simpl. repeat split.
Qed.

(** X7. After an update that answered with a record, a fetch by the same
    identifier answers 200 with that record. *)
Theorem update_then_fetch (id : string) (b : book_body) (d' : document)
        (page : option Z) (query : option string) (st : store) :
  id <> "" ->
  fst (put_books id b st) = res 200 (JMessageBook "Book updated" (Some d')) ->
  let st' := snd (put_books id b st) in
  get_books {| q_page := page; q_query := query; q_id := Some id |} st'
  = (res 200 (JBook d'), st').
Proof.
  intros N P st'. subst st'. rewrite put_books_run in *.
  destruct (castObjectId id) as [i|] eqn:C; [|discriminate].
  destruct (castUpdate b) as [u|e]; [|discriminate].
  simpl in *. injection P as P.
  destruct (find (has_id i) st) as [d|] eqn:F.
  - destruct (find_split i st d F) as (pre & post & -> & A & I).
    rewrite (update_first_split i u pre post d A I) in *. simpl in *.
    injection P as <-.
    rewrite get_books_run. unfold select_mode, run_mode, by_id. simpl q_id.
    rewrite (truthy_text id N). simpl text. rewrite C.
    rewrite (find_app_absent i pre _ A). simpl.
    assert (E : has_id i (apply_update u d) = true) by now apply has_id_true.
    rewrite E. reflexivity.
  - rewrite (update_first_absent i u st F) in P. discriminate.
Qed.

(** X8. Sending the same update again changes nothing: the second
    [PUT /books/:id] gives the answer of the first and leaves the collection
    as the first left it. *)
Theorem update_idempotent (id : string) (b : book_body) (st : store) :
  put_books id b (snd (put_books id b st)) = put_books id b st.
Proof.
  rewrite !put_books_run.
  destruct (castObjectId id) as [i|]; [|reflexivity].
  destruct (castUpdate b) as [u|e]; [|reflexivity]. simpl.
  destruct (find (has_id i) st) as [d|] eqn:F.
  - destruct (find_split i st d F) as (pre & post & -> & A & I).
    rewrite (update_first_split i u pre post d A I). simpl.
    rewrite (update_first_split i u pre post (apply_update u d) A I).
    rewrite apply_update_twice. reflexivity.
  - rewrite (update_first_absent i u st F). simpl.
    rewrite (update_first_absent i u st F). reflexivity.
Qed.

(** X9. [PUT /books/:id] neither adds nor removes a record, whatever it
    answers: the identifiers of the collection, in order, are the same
    before and after. *)
Theorem update_keeps_identifiers (id : string) (b : book_body) (st : store) :
  map _id (snd (put_books id b st)) = map _id st
  /\ List.length (snd (put_books id b st)) = List.length st.
Proof.
  assert (M : map _id (snd (put_books id b st)) = map _id st).
  { rewrite put_books_run. destruct (castObjectId id) as [i|]; [|reflexivity].
    destruct (castUpdate b) as [u|e]; [|reflexivity]. simpl.
    apply update_first_ids. }
  split; [exact M|].
  rewrite <- (length_map _id), M. apply length_map.
Qed.

(** ** Deleting *)

(** X10. [DELETE /books/:id] on the identifier of a stored record answers
    200 with the first record that has it and takes exactly that record out,
    the others staying in their order. *)
Theorem delete_removes_one (id : string) (i : ObjectId) (d : document)
        (st : store) :
  castObjectId id = Some i -> find (has_id i) st = Some d ->
  exists pre post,
    st = (pre ++ d :: post)%list
    /\ delete_books id st
       = (res 200 (JMessageBook "Book deleted" (Some d)), (pre ++ post)%list)
    /\ S (List.length (snd (delete_books id st))) = List.length st.
Proof.
  intros C F. destruct (find_split i st d F) as (pre & post & -> & A & I).
  exists pre, post. split; [reflexivity|].
  rewrite delete_books_run, C, (remove_first_split i pre post d A I).
  split; [reflexivity|]. simpl. rewrite !length_app. simpl. lia.
Qed.

(** X11. In a collection with unique identifiers, deleting twice is
    deleting once: whatever the first [DELETE /books/:id] did, a second one
    with an identifier that casts answers 200 with a null record and leaves
    the collection as the first left it. *)
Theorem delete_twice (id : string) (i : ObjectId) (st : store) :
  store_ok st -> castObjectId id = Some i ->
  let st' := snd (delete_books id st) in
  delete_books id st' = (res 200 (JMessageBook "Book deleted" None), st').
Proof.
  intros U C st'. subst st'. rewrite !delete_books_run, C. simpl.
  assert (A : find (has_id i) (snd (remove_first i st)) = None).
  { destruct (find (has_id i) st) as [d|] eqn:F.
    - rewrite (remove_first_present i st d U F). apply find_filter_out.
    - rewrite (remove_first_absent i st F). exact F. }
  rewrite (remove_first_absent i _ A). reflexivity.
Qed.

(** ** Listing *)

Lemma firstn_plus {A} (a b : nat) (l : list A) :
  firstn (a + b) l = (firstn a l ++ firstn b (skipn a l))%list.
Proof.
  revert l. induction a as [|a IH]; intros l; [reflexivity|].
  destruct l as [|x l]; simpl.
  - now rewrite firstn_nil.
  - now rewrite IH.
Qed.

Lemma listing_page (st : store) (p : nat) :
  (1 <= p)%nat -> listing st p = firstn 4 (skipn (4 * (p - 1)) st).
Proof.
  intros P. unfold listing. rewrite get_books_run.
  unfold select_mode, run_mode, by_page. simpl.
  assert (E : ((Z.of_nat p - 1) * 4 <? 0) = false) by (apply Z.ltb_ge; lia).
  rewrite E. simpl.
  replace (Z.to_nat ((Z.of_nat p - 1) * 4)) with (4 * (p - 1))%nat by lia.
  reflexivity.
Qed.

(** X12. The pages tile the collection: pages 1 to [n], one after the
    other, are the first [4 * n] records, so that they are the whole
    collection, each record once and in order, as soon as [4 * n] reaches
    its size. *)
Theorem pages_cover (st : store) (n : nat) :
  flat_map (listing st) (seq 1 n) = firstn (4 * n) st
  /\ ((List.length st <= 4 * n)%nat -> flat_map (listing st) (seq 1 n) = st).
Proof.
  assert (C : flat_map (listing st) (seq 1 n) = firstn (4 * n) st).
  { induction n as [|n IH]; [reflexivity|].
    rewrite seq_S, flat_map_app, IH. simpl flat_map. rewrite app_nil_r.
    rewrite listing_page by lia.
    replace (4 * (S n - 1))%nat with (4 * n)%nat by lia.
    replace (4 * S n)%nat with (4 * n + 4)%nat by lia.
    now rewrite firstn_plus. }
  split; [exact C|]. intros L. rewrite C. now apply firstn_all2.
Qed.

(** X13. A page past the end of the collection is answered 200 with an
    empty list, not with an error. *)
Theorem page_past_the_end (p : Z) (query id : option string) (st : store) :
  1 <= p -> Z.of_nat (List.length st) <= (p - 1) * 4 ->
  ~ given id -> ~ given query ->
  get_books {| q_page := Some p; q_query := query; q_id := id |} st
  = (res 200 (JBooks []), st).
Proof.
  rewrite <- !truthy_given. intros P L I Q. apply not_true_is_false in I, Q.
  rewrite get_books_run. unfold select_mode, run_mode, by_page. simpl.
  rewrite I, Q.
  assert (E : ((p - 1) * 4 <? 0) = false) by (apply Z.ltb_ge; lia).
  rewrite E, skipn_all2 by lia. reflexivity.
Qed.

(** X14. A page number of 0 or below is answered 400 from the [catch]
    clause, the store refusing the negative skip [(page - 1) * 4]; the
    collection is left as it was. *)
Theorem page_below_one (p : Z) (query id : option string) (st : store) :
  p <= 0 -> ~ given id -> ~ given query ->
  exists text,
    get_books {| q_page := Some p; q_query := query; q_id := id |} st
    = (res 400 (JMessageError "Internal server error" text), st).
Proof.
  rewrite <- !truthy_given. intros P I Q. apply not_true_is_false in I, Q.
  rewrite get_books_run. unfold select_mode, run_mode, by_page. simpl.
  rewrite I, Q.
  assert (E : ((p - 1) * 4 <? 0) = true) by (apply Z.ltb_lt; lia).
  rewrite E. eauto.
Qed.

(** ** Searching *)

Lemma match_here_ci (p p' : list ascii) :
  Forall2 (fun c d => Canonicalize c = Canonicalize d) p p' ->
  forall s, match_here p s = match_here p' s.
Proof.
  induction 1 as [|c c' p p' E F IH]; intros s; [reflexivity|].
  destruct s as [|d s]; simpl; [reflexivity|].
  unfold same_letter. now rewrite E, IH.
Qed.

Lemma search_ci (p p' : list ascii) :
  Forall2 (fun c d => Canonicalize c = Canonicalize d) p p' ->
  forall s, search p s = search p' s.
Proof.
  intros F. induction s as [|d s IH]; simpl;
    rewrite (match_here_ci p p' F); [reflexivity|now rewrite IH].
Qed.

(** X15. The search does not look at the case of the search text: two
    texts without pattern syntax that differ only in the case of their
    letters get the same answer. *)
Theorem search_ignores_case (q q' : string) (page : option Z)
        (id : option string) (st : store) :
  plain_text q = true -> plain_text q' = true -> same_text_ci q q' ->
  get_books {| q_page := page; q_query := Some q; q_id := id |} st
  = get_books {| q_page := page; q_query := Some q'; q_id := id |} st.
Proof.
  intros P P' S. rewrite !get_books_run.
  unfold select_mode, run_mode, by_query. simpl.
  destruct (truthy id); [reflexivity|].
  assert (E : (q =? "")%string = (q' =? "")%string).
  { unfold same_text_ci in S.
    destruct q, q'; simpl in *; try reflexivity; inversion S. }
  rewrite <- E. destruct (q =? "")%string; simpl; [reflexivity|].
  unfold RegExp_i.
  rewrite (literal_pattern_plain q P), (literal_pattern_plain q' P').
  f_equal. f_equal. f_equal. apply filter_ext. intros d.
  now rewrite !(search_ci _ _ S).
Qed.

End MoreHandlers.

(** ** The further properties on the sample environment *)

Lemma sample_create_201 :
  status (fst (@post_books Sample.env (Sample.oid Sample.id9) Sample.sample_body
                 Sample.shelf)) = 201.
Proof. reflexivity. Defined.

Lemma create_then_fetch_witness :
  exists d,
    @get_books Sample.env {| q_page := None; q_query := None; q_id := Some Sample.id9 |}
      (snd (@post_books Sample.env (Sample.oid Sample.id9) Sample.sample_body
              Sample.shelf))
    = (res 200 (JBook d),
       snd (@post_books Sample.env (Sample.oid Sample.id9) Sample.sample_body
              Sample.shelf)).
Proof.
  assert (N : Sample.id9 <> "") by discriminate.
  destruct (@create_then_fetch Sample.env (Sample.oid Sample.id9) Sample.sample_body
              Sample.shelf Sample.id9 None None sample_create_201 N eq_refl)
    as (d & _ & G).
  exists d. exact G.
Defined.

Lemma create_then_delete_witness :
  snd (@delete_books Sample.env Sample.id9
         (snd (@post_books Sample.env (Sample.oid Sample.id9) Sample.sample_body
                 Sample.shelf)))
  = Sample.shelf.
Proof.
  destruct (@create_then_delete Sample.env (Sample.oid Sample.id9) Sample.sample_body
              Sample.shelf Sample.id9 sample_create_201 eq_refl)
    as (d & _ & D).
  rewrite D. reflexivity.
Defined.

Lemma create_then_search_witness :
  exists d l,
    @get_books Sample.env
      {| q_page := None; q_query := Some "Sample Book"; q_id := None |}
      (snd (@post_books Sample.env (Sample.oid Sample.id9) Sample.sample_body
              Sample.shelf))
    = (res 200 (JBooks l),
       snd (@post_books Sample.env (Sample.oid Sample.id9) Sample.sample_body
              Sample.shelf))
    /\ In d l.
Proof.
  destruct (@create_then_search Sample.env (Sample.oid Sample.id9)
              Sample.sample_body Sample.shelf "Sample Book" None None
              sample_create_201)
    as (d & l & _ & G & I).
  - left. reflexivity.
  - reflexivity.
  - intros (s & E & _). discriminate E.
  - exists d, l. split; assumption.
Defined.

Lemma sample_update_casts :
  exists u, @castUpdate Sample.env
              {| b_title := Some ""; b_author := Some "Updated Author";
                 b_isbn := None; b_description := None;
                 b_publishedDate := Some "2023-03-01" |} = Ok u.
Proof. eexists. reflexivity. Defined.

Lemma update_existing_witness :
  exists d',
    fst (@put_books Sample.env Sample.id1
           {| b_title := Some ""; b_author := Some "Updated Author";
              b_isbn := None; b_description := None;
              b_publishedDate := Some "2023-03-01" |} Sample.shelf)
    = res 200 (JMessageBook "Book updated" (Some d'))
    /\ title d' = "" /\ author d' = "Updated Author" /\ isbn d' = "1234567890".
Proof.
  destruct sample_update_casts as (u & U).
  destruct (@update_existing Sample.env Sample.id1 (Sample.oid Sample.id1) _ u
              (Sample.book (Sample.oid Sample.id1) "Sample Book" "John Doe")
              Sample.shelf eq_refl eq_refl U)
    as (d' & pre & post & _ & P & _ & T & A & I & _).
  exists d'. rewrite P. simpl in *. auto.
Defined.

Lemma update_then_fetch_witness :
  exists d',
    @get_books Sample.env {| q_page := None; q_query := None; q_id := Some Sample.id1 |}
      (snd (@put_books Sample.env Sample.id1 Sample.sample_body Sample.shelf))
    = (res 200 (JBook d'),
       snd (@put_books Sample.env Sample.id1 Sample.sample_body Sample.shelf)).
Proof.
  assert (N : Sample.id1 <> "") by discriminate.
  eexists.
  apply (@update_then_fetch Sample.env Sample.id1 Sample.sample_body _ None None
           Sample.shelf N).
  reflexivity.
Defined.

Lemma delete_removes_one_witness :
  S (List.length (snd (@delete_books Sample.env Sample.id1 Sample.shelf)))
  = List.length Sample.shelf.
Proof.
  destruct (@delete_removes_one Sample.env Sample.id1 (Sample.oid Sample.id1)
              (Sample.book (Sample.oid Sample.id1) "Sample Book" "John Doe")
              Sample.shelf eq_refl eq_refl)
    as (pre & post & _ & _ & L).
  exact L.
Defined.

Lemma delete_twice_witness :
  let st' := snd (@delete_books Sample.env Sample.id1 Sample.shelf) in
  @delete_books Sample.env Sample.id1 st'
  = (res 200 (JMessageBook "Book deleted" None), st').
Proof.
  exact (@delete_twice Sample.env Sample.id1 (Sample.oid Sample.id1) Sample.shelf
           sample_shelf_ok eq_refl).
Defined.

Lemma pages_cover_witness :
  flat_map (@listing Sample.env Sample.six) (seq 1 2) = Sample.six.
Proof.
  apply (proj2 (@pages_cover Sample.env Sample.six 2)). simpl. lia.
Defined.

Lemma page_past_the_end_witness :
  @get_books Sample.env {| q_page := Some 3; q_query := None; q_id := None |}
             Sample.six
  = (res 200 (JBooks []), Sample.six).
Proof.
  apply (@page_past_the_end Sample.env 3 None None Sample.six).
  - lia.
  - simpl. lia.
  - intros (s & E & _). discriminate E.
  - intros (s & E & _). discriminate E.
Defined.

Lemma page_below_one_witness :
  exists text,
    @get_books Sample.env {| q_page := Some 0; q_query := None; q_id := None |}
               Sample.six
    = (res 400 (JMessageError "Internal server error" text), Sample.six).
Proof.
  apply (@page_below_one Sample.env 0 None None Sample.six).
  - lia.
  - intros (s & E & _). discriminate E.
  - intros (s & E & _). discriminate E.
Defined.

Lemma search_ignores_case_witness :
  @get_books Sample.env {| q_page := None; q_query := Some "john"; q_id := None |}
             Sample.shelf
  = @get_books Sample.env {| q_page := None; q_query := Some "JOHN"; q_id := None |}
               Sample.shelf.
Proof.
  apply (@search_ignores_case Sample.env "john" "JOHN" None None Sample.shelf).
  - reflexivity.
  - reflexivity.
  - repeat constructor.
Defined.

(** * The router *)

(** X16. Identifiers stay unique: whatever requests the router serves,
    starting from a collection with unique identifiers (the empty one, for
    instance), the collection it ends with has unique identifiers. *)
Theorem identifiers_stay_unique `{Env} (rs : list request) :
  store_ok (serve rs [])
  /\ forall st, store_ok st -> store_ok (serve rs st).
Proof.
  assert (G : forall st, store_ok st -> store_ok (serve rs st)).
  { induction rs as [|r rest IH]; intros st U; simpl; [exact U|].
    apply IH.
    destruct r as [fresh b|q|id b|id]; simpl.
    - apply (handlers_keep_store_ok fresh b
               {| q_page := None; q_query := None; q_id := None |} "" st U).
    - apply (handlers_keep_store_ok 0%N
               {| b_title := None; b_author := None; b_isbn := None;
                  b_description := None; b_publishedDate := None |} q "" st U).
    - apply (handlers_keep_store_ok 0%N b
               {| q_page := None; q_query := None; q_id := None |} id st U).
    - apply (handlers_keep_store_ok 0%N
               {| b_title := None; b_author := None; b_isbn := None;
                  b_description := None; b_publishedDate := None |}
               {| q_page := None; q_query := None; q_id := None |} id st U). }
  split; [|exact G]. apply G. constructor.
Qed.

(** * The user model *)

Lemma Matches_Eps (s : list ascii) : Matches Eps s <-> s = [].
Proof. split; [now inversion 1|intros ->; constructor]. Qed.

Lemma Matches_Class (f : ascii -> bool) (s : list ascii) :
  Matches (Class f) s <-> exists c, s = [c] /\ f c = true.
Proof.
  split.
  - inversion 1; subst. eauto.
  - intros (c & -> & F). now constructor.
Qed.

Lemma Matches_Cat (r1 r2 : regex) (s : list ascii) :
  Matches (Cat r1 r2) s <->
  exists s1 s2, s = (s1 ++ s2)%list /\ Matches r1 s1 /\ Matches r2 s2.
Proof.
  split.
  - inversion 1; subst. eauto.
  - intros (s1 & s2 & -> & M1 & M2). now constructor.
Qed.

Lemma Matches_Alt (r1 r2 : regex) (s : list ascii) :
  Matches (Alt r1 r2) s <-> Matches r1 s \/ Matches r2 s.
Proof.
  split.
  - inversion 1; subst; auto.
  - intros [M|M]; [now apply MAltL|now apply MAltR].
Qed.

Lemma nullable_Matches (r : regex) : nullable r = true <-> Matches r [].
Proof.
  induction r as [| |f|r1 IH1 r2 IH2|r1 IH1 r2 IH2|r IH]; simpl.
  - split; [discriminate|inversion 1].
  - split; [constructor|reflexivity].
  - split; [discriminate|inversion 1].
  - rewrite andb_true_iff, IH1, IH2, Matches_Cat. split.
    + intros [M1 M2]. exists [], []. auto.
    + intros (s1 & s2 & E & M1 & M2). symmetry in E.
      apply app_eq_nil in E. destruct E as [-> ->]. auto.
  - rewrite orb_true_iff, IH1, IH2, Matches_Alt. reflexivity.
  - split; [constructor|reflexivity].
Qed.

Lemma deriv_sound (c : ascii) (r : regex) :
  forall s, Matches (deriv c r) s -> Matches r (c :: s).
Proof.
  induction r as [| |f|r1 IH1 r2 IH2|r1 IH1 r2 IH2|r IH]; simpl; intros s M.
  - inversion M.
  - inversion M.
  - destruct (f c) eqn:F; inversion M; subst. now constructor.
  - destruct (nullable r1) eqn:N.
    + apply Matches_Alt in M. destruct M as [M|M].
      * apply Matches_Cat in M. destruct M as (s1 & s2 & -> & M1 & M2).
        apply (MCat r1 r2 (c :: s1) s2); auto.
      * apply (MCat r1 r2 [] (c :: s)); [now apply nullable_Matches|auto].
    + apply Matches_Cat in M. destruct M as (s1 & s2 & -> & M1 & M2).
      apply (MCat r1 r2 (c :: s1) s2); auto.
  - apply Matches_Alt in M. destruct M as [M|M];
      [apply MAltL|apply MAltR]; auto.
  - apply Matches_Cat in M. destruct M as (s1 & s2 & -> & M1 & M2).
    apply (MStarApp r (c :: s1) s2); auto.
Qed.

Lemma deriv_complete (r : regex) (s' : list ascii) :
  Matches r s' -> forall c s, s' = c :: s -> Matches (deriv c r) s.
Proof.
  induction 1 as [|f c0 F|r1 r2 s1 s2 M1 IH1 M2 IH2|r1 r2 s0 M IH|r1 r2 s0 M IH
                  | r|r s1 s2 M1 IH1 M2 IH2]; intros c s E; simpl.
  - discriminate.
  - injection E as -> <-. rewrite F. constructor.
  - destruct s1 as [|c1 s1]; simpl in E.
    + apply nullable_Matches in M1. rewrite M1. apply MAltR. auto.
    + injection E as -> <-.
      assert (C : Matches (Cat (deriv c r1) r2) (s1 ++ s2))
        by (constructor; auto).
      destruct (nullable r1); [now apply MAltL|exact C].
  - apply MAltL. auto.
  - apply MAltR. auto.
  - discriminate.
  - destruct s1 as [|c1 s1]; simpl in E.
    + apply (IH2 c s E).
    + injection E as -> <-. constructor; auto.
Qed.

(** The derivative matcher decides the texts the pattern denotes. *)
Lemma matches_spec (s : list ascii) :
  forall r, matches r s = true <-> Matches r s.
Proof.
  induction s as [|c s IH]; intros r; simpl.
  - apply nullable_Matches.
  - rewrite IH. split.
    + apply deriv_sound.
    + intros M. now apply (deriv_complete r (c :: s)).
Qed.

Lemma Matches_Star_Class (f : ascii -> bool) (s : list ascii) :
  Matches (Star (Class f)) s <-> forallb f s = true.
Proof.
  split.
  - intros M. remember (Star (Class f)) as r eqn:R.
    induction M as [| | | | | r0|r0 s1 s2 M1 _ M2 IH2]; try discriminate.
    + reflexivity.
    + injection R as ->. apply Matches_Class in M1.
      destruct M1 as (c & -> & F). simpl. rewrite F. now apply IH2.
  - induction s as [|c s IH]; simpl; [constructor|].
    rewrite andb_true_iff. intros [F A].
    apply (MStarApp (Class f) [c] s); [now constructor|auto].
Qed.

Lemma Matches_Plus_Class (f : ascii -> bool) (s : list ascii) :
  Matches (Plus (Class f)) s <-> s <> [] /\ forallb f s = true.
Proof.
  unfold Plus. rewrite Matches_Cat. split.
  - intros (s1 & s2 & -> & M1 & M2). apply Matches_Class in M1.
    destruct M1 as (c & -> & F). apply Matches_Star_Class in M2.
    simpl. rewrite F, M2. split; [discriminate|reflexivity].
  - intros [N A]. destruct s as [|c s]; [contradiction|]. simpl in A.
    apply andb_true_iff in A. destruct A as [F A].
    exists [c], s. split; [reflexivity|]. split.
    + now constructor.
    + now apply Matches_Star_Class.
Qed.

Lemma Matches_Char (c : ascii) (s : list ascii) :
  Matches (Char c) s <-> s = [c].
Proof.
  unfold Char. rewrite Matches_Class. split.
  - intros (x & -> & E). apply Ascii.eqb_eq in E. now subst.
  - intros ->. exists c. split; [reflexivity|apply Ascii.eqb_refl].
Qed.

Lemma Matches_Times_Class (f : ascii -> bool) (n : nat) :
  forall s, Matches (Times n (Class f)) s <->
            List.length s = n /\ forallb f s = true.
Proof.
  induction n as [|n IH]; intros s; simpl.
  - rewrite Matches_Eps. split.
    + intros ->. auto.
    + intros [L _]. now destruct s.
  - rewrite Matches_Cat. split.
    + intros (s1 & s2 & -> & M1 & M2). apply Matches_Class in M1.
      destruct M1 as (c & -> & F). apply IH in M2. destruct M2 as [L A].
      simpl. rewrite F, L, A. auto.
    + intros [L A]. destruct s as [|c s]; [discriminate|]. simpl in *.
      apply andb_true_iff in A. destruct A as [F A].
      exists [c], s. split; [reflexivity|]. split; [now constructor|].
      apply IH. split; [lia|assumption].
Qed.

Lemma Matches_Upto_Class (f : ascii -> bool) (n : nat) :
  forall s, Matches (Upto n (Class f)) s <->
            (List.length s <= n)%nat /\ forallb f s = true.
Proof.
  induction n as [|n IH]; intros s; simpl.
  - rewrite Matches_Eps. split.
    + intros ->. auto.
    + intros [L _]. destruct s; [reflexivity|simpl in L; lia].
  - unfold Opt. rewrite Matches_Alt, Matches_Eps, Matches_Cat. split.
    + intros [->|(s1 & s2 & -> & M1 & M2)].
      * simpl. split; [lia|reflexivity].
      * apply Matches_Class in M1. destruct M1 as (c & -> & F).
        apply IH in M2. destruct M2 as [L A]. simpl. rewrite F, A.
        split; [lia|reflexivity].
    + intros [L A]. destruct s as [|c s]; [now left|]. right. simpl in *.
      apply andb_true_iff in A. destruct A as [F A].
      exists [c], s. split; [reflexivity|]. split; [now constructor|].
      apply IH. split; [lia|assumption].
Qed.

Lemma Matches_Repeat_Class (f : ascii -> bool) (lo hi : nat) (s : list ascii) :
  (lo <= hi)%nat ->
  Matches (Repeat lo hi (Class f)) s <->
  (lo <= List.length s <= hi)%nat /\ forallb f s = true.
Proof.
  intros B. unfold Repeat. rewrite Matches_Cat. split.
  - intros (s1 & s2 & -> & M1 & M2).
    apply Matches_Times_Class in M1. apply Matches_Upto_Class in M2.
    destruct M1 as [L1 A1], M2 as [L2 A2].
    rewrite length_app, forallb_app, A1, A2. split; [lia|reflexivity].
  - intros [L A]. exists (firstn lo s), (skipn lo s).
    rewrite <- (firstn_skipn lo s) in A. rewrite forallb_app in A.
    apply andb_true_iff in A. destruct A as [A1 A2].
    split; [now rewrite firstn_skipn|]. split.
    + apply Matches_Times_Class. rewrite length_firstn. split; [lia|assumption].
    + apply Matches_Upto_Class. rewrite length_skipn. split; [lia|assumption].
Qed.

Lemma Matches_emailPattern (s : list ascii) :
  Matches emailPattern s <->
  exists l d t : list ascii,
    s = (l ++ "@"%char :: d ++ "."%char :: t)%list
    /\ l <> [] /\ forallb local_char l = true
    /\ d <> [] /\ forallb domain_char d = true
    /\ (2 <= List.length t <= 4)%nat /\ forallb letter t = true.
Proof.
  unfold emailPattern. split.
  - intros M.
    apply Matches_Cat in M. destruct M as (l & s1 & -> & Ml & M).
    apply Matches_Cat in M. destruct M as (a & s2 & -> & Ma & M).
    apply Matches_Cat in M. destruct M as (d & s3 & -> & Md & M).
    apply Matches_Cat in M. destruct M as (p & t & -> & Mp & Mt).
    apply Matches_Plus_Class in Ml, Md. apply Matches_Char in Ma, Mp.
    apply Matches_Repeat_Class in Mt; [|lia]. subst a p.
    exists l, d, t. simpl. tauto.
  - intros (l & d & t & -> & Nl & Al & Nd & Ad & Lt & At).
    apply (MCat _ _ l); [now apply Matches_Plus_Class|].
    apply (MCat _ _ ["@"%char]); [now apply Matches_Char|].
    apply (MCat _ _ d); [now apply Matches_Plus_Class|].
    apply (MCat _ _ ["."%char]); [now apply Matches_Char|].
    apply Matches_Repeat_Class; [lia|auto].
Qed.

Lemma regex_test_emailPattern (s : string) :
  regex_test emailPattern s = true <-> email_form s.
Proof.
  unfold regex_test, email_form. rewrite matches_spec.
  apply Matches_emailPattern.
Qed.

Lemma local_char_not_at (c : ascii) : local_char c = true -> c <> "@"%char.
Proof. intros F ->. vm_compute in F. discriminate. Qed.

Lemma domain_char_local (c : ascii) : domain_char c = true -> local_char c = true.
Proof.
  unfold domain_char, local_char. rewrite !orb_true_iff. tauto.
Qed.

Lemma letter_local (c : ascii) : letter c = true -> local_char c = true.
Proof.
  unfold letter, local_char. rewrite !orb_true_iff. tauto.
Qed.

Lemma forallb_weaken {A} (f g : A -> bool) (l : list A) :
  (forall x, f x = true -> g x = true) -> forallb f l = true -> forallb g l = true.
Proof.
  intros W. induction l as [|x l IH]; simpl; [reflexivity|].
  rewrite !andb_true_iff. intros [F R]. auto.
Qed.

Lemma count_no_at (l : list ascii) :
  forallb local_char l = true -> count_occ ascii_dec l "@"%char = 0%nat.
Proof.
  induction l as [|x l IH]; simpl; [reflexivity|].
  rewrite andb_true_iff. intros [F R].
  destruct (ascii_dec x "@") as [E|_]; [|auto].
  now apply local_char_not_at in F.
Qed.

Lemma length_chars (s : string) :
  List.length (list_ascii_of_string s) = String.length s.
Proof. induction s as [|c s IH]; simpl; [reflexivity|now rewrite IH]. Qed.

(** X17. The pattern of [email] accepts exactly the texts made of a local
    part of one or more letters, digits, dots, underscores and hyphens, then
    [@], then a domain of one or more letters, digits, dots and hyphens,
    then a dot and an ending of two to four letters. *)
Theorem email_pattern_accepts (s : string) :
  regex_test (e_match (us_email userSchema)) s = true <-> email_form s.
Proof.
  change (e_match (us_email userSchema)) with emailPattern.
  unfold regex_test, email_form.
  rewrite matches_spec.
  apply Matches_emailPattern.
Qed.

(** X18. What the pattern of [email] never accepts: a text with no [@] or
    with more than one, a text with any character other than letters,
    digits, dot, underscore, hyphen and [@] (so no space and no plus
    sign), a text of fewer than six characters. *)
Theorem email_pattern_refuses (s : string) :
  regex_test emailPattern s = true ->
  count_occ ascii_dec (list_ascii_of_string s) "@"%char = 1%nat
  /\ forallb (fun c => local_char c || Ascii.eqb c "@") (list_ascii_of_string s)
     = true
  /\ (6 <= String.length s)%nat.
Proof.
  intros M. apply regex_test_emailPattern in M.
  destruct M as (l & d & t & E & Nl & Al & Nd & Ad & Lt & At).
  rewrite <- length_chars, E.
  apply (forallb_weaken _ _ _ domain_char_local) in Ad.
  apply (forallb_weaken _ _ _ letter_local) in At.
  split; [|split].
  - rewrite count_occ_app. simpl.
    destruct (ascii_dec "@" "@") as [_|N]; [|now destruct N].
    rewrite count_occ_app. simpl.
    destruct (ascii_dec "." "@") as [D|_]; [discriminate D|].
    rewrite !count_no_at by assumption. reflexivity.
  - assert (W : forall c, local_char c = true ->
                          local_char c || Ascii.eqb c "@" = true).
    { intros c F. now rewrite F. }
    rewrite forallb_app. simpl. rewrite forallb_app. simpl.
    rewrite (forallb_weaken _ _ _ W Al), (forallb_weaken _ _ _ W Ad),
      (forallb_weaken _ _ _ W At).
    reflexivity.
  - rewrite length_app. simpl. rewrite length_app. simpl.
    destruct l; [contradiction|]. destruct d; [contradiction|]. simpl. lia.
Qed.

Lemma required_string_given (t : schema_type) (path : string)
      (v : option string) :
  required_string {| type := t; required := true |} path (castString v) = []
  <-> given v.
Proof.
  unfold required_string, castString, given. destruct v as [s|]; simpl.
  - destruct (String.eqb_spec s "") as [->|N].
    + split; [discriminate|]. intros (s & [= <-] & N). now destruct N.
    + split; [eauto|reflexivity].
  - split; [discriminate|]. intros (s & [=] & _).
Qed.

(** X19. A user passes the validators of [userSchema] exactly when [name]
    and [password] are given and [email] is given and has the form the
    pattern accepts. *)
Theorem user_validates_iff (b : user_body) :
  user_failures b = [] <->
  given (r_name b) /\ given (r_password b)
  /\ exists e, r_email b = Some e /\ email_form e.
Proof.
  unfold user_failures.
  change (e_match (us_email userSchema)) with emailPattern.
  change (us_name userSchema) with {| type := SString; required := true |}.
  change (us_password userSchema) with {| type := SString; required := true |}.
  change {| type := e_type (us_email userSchema);
            required := e_required (us_email userSchema) |}
    with {| type := SString; required := true |}.
  split.
  - intros E. apply app_eq_nil in E. destruct E as [En E].
    apply app_eq_nil in E. destruct E as [Ee Ep].
    apply required_string_given in En, Ep.
    split; [exact En|]. split; [exact Ep|].
    destruct (required_string _ "email" (castString (r_email b))) as [|f fs] eqn:R;
      [|discriminate].
    apply required_string_given in R. destruct R as (e & Eq & N).
    exists e. split; [exact Eq|]. rewrite Eq in Ee.
    unfold match_failure, castString in Ee.
    apply String.eqb_neq in N. rewrite N in Ee. simpl in Ee.
    destruct (regex_test emailPattern e) eqn:T; [|discriminate].
    now apply regex_test_emailPattern.
  - intros (Gn & Gp & e & Eq & F).
    apply (required_string_given SString "name") in Gn.
    apply (required_string_given SString "password") in Gp. rewrite Gn, Gp.
    assert (Ge : given (r_email b)).
    { exists e. split; [exact Eq|]. intros ->.
      apply regex_test_emailPattern in F. vm_compute in F. discriminate F. }
    apply (required_string_given SString "email") in Ge. rewrite Ge.
    rewrite Eq. unfold match_failure, castString.
    apply regex_test_emailPattern in F. rewrite F, orb_true_r. reflexivity.
Qed.

Example email_of_the_tests : regex_test emailPattern "test@example.com" = true.
Proof. reflexivity. Qed.

Example email_long_ending : regex_test emailPattern "curator@city.museum" = false.
Proof. reflexivity. Qed.

Example email_plus_sign : regex_test emailPattern "john+books@example.com" = false.
Proof. reflexivity. Qed.

(** * The test suite *)

(** X20. The book tests of the repository pass: in an environment where
    [invalid_id] does not cast, the two dates of the tests parse and the
    text [bookId] casts to the identifier of the book created, the ten
    requests of the test file, served in order on a collection that does not
    hold that identifier, get the statuses, messages and shapes the tests
    expect, and leave the collection as it was. *)
Theorem book_tests_pass `{Env} (fresh fresh' : ObjectId) (bookId : string)
        (p1 p2 : Date) (st : store) :
  castObjectId bookId = Some fresh -> bookId <> "" ->
  castObjectId invalidBookId = None ->
  parseDate "2023-01-01" = Some p1 -> parseDate "2023-03-01" = Some p2 ->
  find (has_id fresh) st = None ->
  map observe (responses (book_tests fresh fresh' bookId) st) = book_expectations
  /\ serve (book_tests fresh fresh' bookId) st = st.
Proof.
  intros C N Ci P1 P2 A.
  set (d0 := {| _id := fresh; title := "Sample Book"; author := "John Doe";
                isbn := "1234567890";
                description := "A sample book description";
                publishedDate := Some p1 |}).
  set (d1 := {| _id := fresh; title := "Updated Book"; author := "Updated Author";
                isbn := "9876543210"; description := "Updated description";
                publishedDate := Some p2 |}).
  assert (Ex : existsb (has_id fresh) st = false)
    by now apply existsb_has_id, find_absent.
  assert (S1 : post_books fresh test_book st
               = (res 201 (JMessageBook "Book created" (Some d0)), (st ++ [d0])%list)).
  { rewrite post_books_run. simpl.
    unfold validate, failures_of, BookModel_new, castDate. simpl.
    rewrite P1. simpl. rewrite Ex. reflexivity. }
  assert (S2 : forall s, post_books fresh' empty_body s
                         = (res 400 (JMessage "All fields are required"), s)).
  { intros s. rewrite post_books_run. reflexivity. }
  assert (S3 : forall s, observe (fst (get_books
                 {| q_page := Some 1; q_query := None; q_id := None |} s))
                         = (200, None, true)
                         /\ snd (get_books
                 {| q_page := Some 1; q_query := None; q_id := None |} s) = s).
  { intros s. rewrite get_books_run. split; reflexivity. }
  assert (S4 : forall s, observe (fst (get_books
                 {| q_page := None; q_query := Some "Sample"; q_id := None |} s))
                         = (200, None, true)
                         /\ snd (get_books
                 {| q_page := None; q_query := Some "Sample"; q_id := None |} s) = s).
  { intros s. rewrite get_books_run. split; reflexivity. }
  assert (S5 : get_books {| q_page := None; q_query := None; q_id := Some bookId |}
                 (st ++ [d0])%list
               = (res 200 (JBook d0), (st ++ [d0])%list)).
  { rewrite get_books_run. unfold select_mode, run_mode, by_id. simpl q_id.
    rewrite (truthy_text bookId N). simpl text. rewrite C.
    rewrite (find_app_absent fresh st [d0] A). simpl.
    unfold has_id. simpl. rewrite N.eqb_refl. reflexivity. }
  assert (S6 : forall s, observe (fst (get_books
                 {| q_page := None; q_query := None; q_id := Some invalidBookId |} s))
                         = (400, Some "Internal server error", false)
                         /\ snd (get_books
                 {| q_page := None; q_query := None; q_id := Some invalidBookId |} s)
                            = s).
  { intros s. rewrite get_books_run. unfold select_mode, run_mode, by_id.
    simpl. rewrite Ci. split; reflexivity. }
  assert (S7 : put_books bookId test_update (st ++ [d0])%list
               = (res 200 (JMessageBook "Book updated" (Some d1)), (st ++ [d1])%list)).
  { rewrite put_books_run, C. unfold castUpdate, castDate. simpl. rewrite P2.
    rewrite (update_first_split fresh _ st [] d0 A eq_refl). reflexivity. }
  assert (S8 : forall s, put_books invalidBookId test_update s
                         = (res 400 (JMessageError "Internal server error"
                                       (cast_message "ObjectId" invalidBookId "_id")), s)).
  { intros s. rewrite put_books_run, Ci. reflexivity. }
  assert (S9 : delete_books bookId (st ++ [d1])%list
               = (res 200 (JMessageBook "Book deleted" (Some d1)), st)).
  { rewrite delete_books_run, C.
    rewrite (remove_first_split fresh st [] d1 A eq_refl). simpl.
    now rewrite app_nil_r. }
  assert (S10 : forall s, delete_books invalidBookId s
                          = (res 400 (JMessageError "Internal server error"
                                        (cast_message "ObjectId" invalidBookId "_id")), s)).
  { intros s. rewrite delete_books_run, Ci. reflexivity. }
  unfold book_tests, book_expectations.
  cbn [responses serve bookRouter map].
  rewrite S1. cbn [fst snd]. rewrite S2. cbn [fst snd].
  destruct (S3 (st ++ [d0])%list) as [O3 E3]. rewrite O3, E3.
  destruct (S4 (st ++ [d0])%list) as [O4 E4]. rewrite O4, E4.
  rewrite S5. cbn [fst snd].
  destruct (S6 (st ++ [d0])%list) as [O6 E6]. rewrite O6, E6.
  rewrite S7. cbn [fst snd]. rewrite S8. cbn [fst snd].
  rewrite S9. cbn [fst snd]. rewrite S10. cbn [fst snd].
  split; reflexivity.
Qed.

Lemma email_pattern_refuses_witness :
  count_occ ascii_dec (list_ascii_of_string "test@example.com") "@"%char = 1%nat
  /\ (6 <= String.length "test@example.com")%nat.
Proof.
  destruct (email_pattern_refuses "test@example.com" eq_refl) as (C & _ & L).
  split; assumption.
Defined.

Lemma book_tests_pass_witness :
  map observe
      (@responses Sample.env
         (book_tests (Sample.oid Sample.id9) 0%N Sample.id9) Sample.shelf)
  = book_expectations
  /\ @serve Sample.env (book_tests (Sample.oid Sample.id9) 0%N Sample.id9)
            Sample.shelf
     = Sample.shelf.
Proof.
  assert (N : Sample.id9 <> "") by discriminate.
  exact (@book_tests_pass Sample.env (Sample.oid Sample.id9) 0%N Sample.id9
           1672531200000 1677628800000 Sample.shelf
           eq_refl N eq_refl eq_refl eq_refl eq_refl).
Defined.

(** On a date the calendar has, the same environment stores the date as
    written. *)
Example create_keeps_a_written_date :
  option_map calendar_date (Lenient.lenient_date "2023-01-01")
  = written_date "2023-01-01".
Proof. reflexivity. Qed.
